(** * BooksToScrape scraper: a shallow embedding of [flipkart_scraper.py]

    The module downloads listing pages ([get_page]), extracts one dict per
    product node ([parse_books]) and assembles a pandas frame with a cleaned
    price column ([scrape_books]).

    Modelling choices, all taken from the code and from the libraries it
    calls:
    - a Python [str] is a list of Unicode code points;
    - a parsed document is a tree of bs4 page elements; the HTML parser
      itself ([BeautifulSoup(html, "lxml")]) is a parameter of the
      development;
    - exceptions are values of [exception]; effectful code runs in a state
      and error monad over a [world] that records what was printed and which
      URLs were requested; the remote site is a parameter as well;
    - a Python float is the rational its binary64 value equals, or the
      infinity an overflow gives; [float(s)] rounds the decimal literal [s]
      to the nearest binary64 number, ties to even, with the IEEE 754
      division of the standard library's [SpecFloat]. *)

From Stdlib Require Import ZArith NArith List Ascii Bool Lia.
From Stdlib Require Import DecimalString QArith.
From Stdlib Require String DecimalZ DecimalPos SpecFloat.
Import ListNotations String.StringSyntax.

Set Warnings "-register-all".
Delimit Scope string_scope with string.
Close Scope Q_scope.

Set Implicit Arguments.

(** ** Python strings *)

Definition char := N.
Definition str := list char.

(** [u "abc"] is the Python literal ["abc"]. *)
Definition u (s : String.string) : str :=
  map N_of_ascii (String.list_ascii_of_string s).
Arguments u s%_string.

Fixpoint str_eqb (a b : str) : bool :=
  match a, b with
  | [], [] => true
  | x :: a', y :: b' => N.eqb x y && str_eqb a' b'
  | _, _ => false
  end.

(** [str.isspace] on one code point (Py_UNICODE_ISSPACE). *)
Definition isspace (c : char) : bool :=
  let c := Z.of_N c in
  ((9 <=? c) && (c <=? 13) || (28 <=? c) && (c <=? 32)
   || (c =? 133) || (c =? 160) || (c =? 5760)
   || (8192 <=? c) && (c <=? 8202)
   || (c =? 8232) || (c =? 8233) || (c =? 8239) || (c =? 8287)
   || (c =? 12288))%Z.

Fixpoint lstrip (s : str) : str :=
  match s with
  | [] => []
  | c :: s' => if isspace c then lstrip s' else s
  end.

(** [s.strip()] *)
Definition strip (s : str) : str := rev (lstrip (rev (lstrip s))).

(** [str(n)] for an int. *)
Definition str_of_int (n : Z) : str := u (NilZero.string_of_int (Z.to_int n)).

(** ** Exceptions and results *)

(** What [requests.get] and [raise_for_status] raise; all are subclasses of
    [requests.RequestException]. *)
Inductive RequestException :=
| ConnectionError
| Timeout
| HTTPError (status : Z).

Inductive exception :=
| AttributeError (attr : str)   (* 'NoneType' object has no attribute attr *)
| TypeError                     (* 'NoneType' object is not subscriptable *)
| KeyError (key : str)
| ValueError (arg : str)        (* could not convert string to float: arg *)
| Requests (e : RequestException).

Inductive result (A : Type) :=
| Return (a : A)
| Raise (e : exception).
Arguments Return {A} a.
Arguments Raise {A} e.

Definition rbind {A B} (r : result A) (k : A -> result B) : result B :=
  match r with
  | Return a => k a
  | Raise e => Raise e
  end.

Declare Scope result_scope.
Delimit Scope result_scope with result.
Notation "x <- r ;; k" := (rbind r (fun x => k))
  (at level 61, r at next level, right associativity) : result_scope.

(** A [for] loop that appends one item per element and stops at the first
    exception. *)
Fixpoint mapM {A B} (f : A -> result B) (l : list A) : result (list B) :=
  match l with
  | [] => Return []
  | x :: l' =>
      (y <- f x ;; ys <- mapM f l' ;; Return (y :: ys))%result
  end.

(** ** The document tree (bs4) *)

(** A [Tag] carries its name, its single-valued attributes, the token list
    of its [class] attribute (bs4 splits it on whitespace; empty when the
    attribute is missing) and its children.  Tag names are stored in lower
    case, as the lxml builder produces them.  [Comment] stands for the
    strings [get_text] leaves out (comments, and the text of scripts and
    style sheets). *)
Inductive PageElement :=
| Tag (name : str) (attrs : list (str * str)) (klass : list str)
      (contents : list PageElement)
| NavigableString (s : str)
| Comment (s : str).

(** [el.descendants]: every node below [el], in document order. *)
Fixpoint descendants (el : PageElement) : list PageElement :=
  match el with
  | Tag _ _ _ cs => flat_map (fun c => c :: descendants c) cs
  | _ => []
  end.

(** A compound selector [tag.c1.c2...]. *)
Record selector := { sel_tag : str; sel_classes : list str }.

Definition has_class (k : list str) (c : str) : bool := existsb (str_eqb c) k.

Definition matches (sel : selector) (el : PageElement) : bool :=
  match el with
  | Tag n _ k _ => str_eqb n (sel_tag sel) && forallb (has_class k) (sel_classes sel)
  | _ => false
  end.

(** [el.select(sel)] and [el.select_one(sel)] *)
Definition select (sel : selector) (el : PageElement) : list PageElement :=
  filter (matches sel) (descendants el).

Definition select_one (sel : selector) (el : PageElement) : option PageElement :=
  hd_error (select sel el).

(** [el.find(name)], which is what [el.h3] and [el.a] call. *)
Definition is_tag_named (n : str) (el : PageElement) : bool :=
  match el with
  | Tag m _ _ _ => str_eqb m n
  | _ => false
  end.

Definition find (n : str) (el : PageElement) : option PageElement :=
  hd_error (filter (is_tag_named n) (descendants el)).

Fixpoint lookup (key : str) (d : list (str * str)) : option str :=
  match d with
  | [] => None
  | (k, v) :: d' => if str_eqb k key then Some v else lookup key d'
  end.

Definition tag_attrs (el : PageElement) : list (str * str) :=
  match el with
  | Tag _ a _ _ => a
  | _ => []
  end.

Definition tag_class (el : PageElement) : list str :=
  match el with
  | Tag _ _ k _ => k
  | _ => []
  end.

(** [o.name] where [o] may be [None]. *)
Definition getattr_tag (o : option PageElement) (n : str)
  : result (option PageElement) :=
  match o with
  | None => Raise (AttributeError n)
  | Some el => Return (find n el)
  end.

(** [o[key]] where [o] may be [None]. *)
Definition getitem (o : option PageElement) (key : str) : result str :=
  match o with
  | None => Raise TypeError
  | Some el =>
      match lookup key (tag_attrs el) with
      | Some v => Return v
      | None => Raise (KeyError key)
      end
  end.

(** The strings [get_text] joins: text nodes only. *)
Definition text_of (el : PageElement) : list str :=
  match el with
  | NavigableString s => [s]
  | _ => []
  end.

Definition nonempty (s : str) : bool :=
  match s with
  | [] => false
  | _ => true
  end.

(** [el.get_text(strip=True)]: every text node below [el] is stripped, the
    empty ones are dropped, the rest is joined. *)
Definition stripped_text (el : PageElement) : str :=
  List.concat (filter nonempty (map strip (flat_map text_of (descendants el)))).

(** [o.get_text(strip=True)] where [o] may be [None]. *)
Definition get_text_strip (o : option PageElement) : result str :=
  match o with
  | None => Raise (AttributeError (u "get_text"))
  | Some el => Return (stripped_text el)
  end.

(** ** parse_books *)

Definition article_product_pod : selector :=
  {| sel_tag := u "article"; sel_classes := [u "product_pod"] |}.
Definition p_price_color : selector :=
  {| sel_tag := u "p"; sel_classes := [u "price_color"] |}.
Definition p_instock_availability : selector :=
  {| sel_tag := u "p"; sel_classes := [u "instock"; u "availability"] |}.
Definition p_star_rating : selector :=
  {| sel_tag := u "p"; sel_classes := [u "star-rating"] |}.

(** The dict appended for one product node. *)
Record book := {
  title : str;
  price_raw : str;
  availability : str;
  rating : option str
}.

(** [rating_tag["class"][1] if rating_tag and len(rating_tag["class"]) > 1
    else None] *)
Definition rating_of (rating_tag : option PageElement) : option str :=
  match rating_tag with
  | Some el =>
      if (1 <? length (tag_class el))%nat then nth_error (tag_class el) 1
      else None
  | None => None
  end.

(** The body of the loop over the product nodes. *)
Definition book_of (art : PageElement) : result book :=
  (h3 <- Return (find (u "h3") art) ;;
   a <- getattr_tag h3 (u "a") ;;
   title <- getitem a (u "title") ;;
   price_text <- get_text_strip (select_one p_price_color art) ;;
   availability <- get_text_strip (select_one p_instock_availability art) ;;
   Return {| title := title;
             price_raw := price_text;
             availability := availability;
             rating := rating_of (select_one p_star_rating art) |})%result.

(** ** Price cleaning *)

(** A bracket expression of a regular expression: [[^0-9.]] is the negated
    class made of the range ['0'-'9'] and the literal ['.']. *)
Inductive class_item :=
| Lit (c : char)
| Range (lo hi : char).

Record char_class := { negated : bool; items : list class_item }.

Definition item_matches (c : char) (i : class_item) : bool :=
  match i with
  | Lit d => N.eqb c d
  | Range lo hi => N.leb lo c && N.leb c hi
  end.

Definition class_matches (cc : char_class) (c : char) : bool :=
  xorb (negated cc) (existsb (item_matches c) (items cc)).

(** r"[^0-9.]" *)
Definition not_digit_or_dot : char_class :=
  {| negated := true; items := [Range 48 57; Lit 46]%N |}.

(** [re.sub] for a pattern that is one bracket expression: every character
    the class matches is replaced by [repl], the others are copied. *)
Fixpoint re_sub (cc : char_class) (repl : str) (s : str) : str :=
  match s with
  | [] => []
  | c :: s' =>
      if class_matches cc c then repl ++ re_sub cc repl s'
      else c :: re_sub cc repl s'
  end.

(** [series.str.replace(pat, repl, regex=True)] on a column of strings. *)
Definition str_replace (cc : char_class) (repl : str) (series : list str)
  : list str :=
  map (re_sub cc repl) series.

Definition is_digit (c : char) : bool := (N.leb 48 c && N.leb c 57)%N.
Definition is_dot (c : char) : bool := (N.eqb c 46)%N.

Fixpoint span_digits (s : str) : str * str :=
  match s with
  | [] => ([], [])
  | c :: s' =>
      if is_digit c
      then let (ds, rest) := span_digits s' in (c :: ds, rest)
      else ([], s)
  end.

Definition int_of_digits (ds : str) : N :=
  fold_left (fun acc c => (10 * acc + (c - 48))%N) ds 0%N.

Fixpoint pow10 (n : nat) : positive :=
  match n with
  | O => 1%positive
  | S n' => (10 * pow10 n')%positive
  end.

(** A Python float, as the number it is worth: the rational a finite
    binary64 number equals, or the infinity an overflow gives.  The
    conversion of a price yields neither a NaN nor a negative infinity
    ([strtod_shape]), and the type has none. *)
Inductive float :=
| Finite (q : Q)
| Inf.

(** [a <= b] and [a < b] on floats. *)
Definition float_leb (a b : float) : bool :=
  match a, b with
  | Finite x, Finite y => Qle_bool x y
  | _, Inf => true
  | Inf, Finite _ => false
  end.

Definition float_ltb (a b : float) : bool := negb (float_leb b a).

(** The rational [m * 2^e]. *)
Definition value_of (m : positive) (e : Z) : Q :=
  match e with
  | Zneg p => Qmake (Zpos m) (Pos.pow 2 p)
  | _ => inject_Z (Zpos m * 2 ^ e)
  end.

(** The number a binary64 datum is worth.  A NaN and a negative infinity
    have no counterpart in [float]; the conversion of a price never gives
    one ([strtod_shape]). *)
Definition float_of_spec (x : SpecFloat.spec_float) : float :=
  match x with
  | SpecFloat.S754_zero _ => Finite 0
  | SpecFloat.S754_finite s m e =>
      Finite (Qred (if s then Qopp (value_of m e) else value_of m e))
  | SpecFloat.S754_infinity _ => Inf
  | SpecFloat.S754_nan => Inf
  end.

(** The binary64 number nearest to [n / d], ties to even: the correctly
    rounded conversion of a decimal numeral, which overflows to infinity and
    underflows to zero. *)
Definition strtod (n : N) (d : positive) : SpecFloat.spec_float :=
  match n with
  | N0 => SpecFloat.S754_zero false
  | Npos p =>
      SpecFloat.SFdiv 53 1024 (SpecFloat.S754_finite false p 0)
                      (SpecFloat.S754_finite false d 0)
  end.

(** The float nearest to the number written [ip.fp]. *)
Definition decimal (ip fp : str) : float :=
  float_of_spec (strtod (int_of_digits (ip ++ fp)) (pow10 (length fp))).

(** [float(s)] for a string [s] over the alphabet of digits and ['.'], the
    only strings the call site passes (see [re_sub_alphabet]): digits with
    at most one point and at least one digit.  Python's [float] also accepts
    signs, exponents, surrounding blanks, underscores, [inf] and [nan]; none
    of them can be written in that alphabet and they are not modelled. *)
Definition py_float (s : str) : result float :=
  let (ip, rest) := span_digits s in
  match rest with
  | [] =>
      if nonempty ip then Return (decimal ip []) else Raise (ValueError s)
  | c :: fp =>
      if is_dot c && forallb is_digit fp && (nonempty ip || nonempty fp)
      then Return (decimal ip fp)
      else Raise (ValueError s)
  end.

(** [series.astype(float)]: converts in order, the first failure raises. *)
Definition astype_float (series : list str) : result (list float) :=
  mapM py_float series.

(** ** The frame *)

(** A frame is its column labels and its rows in index order. *)
Record DataFrame (row : Type) := {
  columns : list str;
  rows : list row
}.

(** [pd.DataFrame(records)]: the labels are the keys of the dicts, so a
    frame built from the empty list has no column at all. *)
Definition pd_DataFrame (records : list book) : DataFrame book :=
  {| columns :=
       match records with
       | [] => []
       | _ :: _ => [u "title"; u "price_raw"; u "availability"; u "rating"]
       end;
     rows := records |}.

(** [df[key]], reading the column through [field]. *)
Definition df_getitem {row A} (df : DataFrame row) (key : str)
           (field : row -> A) : result (list A) :=
  if existsb (str_eqb key) (columns df)
  then Return (map field (rows df))
  else Raise (KeyError key).

Record NormalizedBookRecord := {
  raw : book;
  price_clean : float
}.

(** [df["price_clean"] = series]: the new column is appended; [series] was
    computed from a column of [df], so it is aligned with its rows. *)
Definition df_setitem_price_clean (df : DataFrame book)
           (series : list float)
  : DataFrame NormalizedBookRecord :=
  {| columns := columns df ++ [u "price_clean"];
     rows := map (fun bq => {| raw := fst bq; price_clean := snd bq |})
                 (combine (rows df) series) |}.

(** The price cleaning block at the end of [scrape_books]. *)
Definition clean_prices (df : DataFrame book)
  : result (DataFrame NormalizedBookRecord) :=
  (col <- df_getitem df (u "price_raw") price_raw ;;
   series <- astype_float (str_replace not_digit_or_dot [] col) ;;
   Return (df_setitem_price_clean df series))%result.

(** ** The world: standard output and the network *)

Record Response := { status_code : Z; text : str }.

Record world := {
  stdout : list str;       (* lines printed so far *)
  requests : list str      (* URLs requested so far, oldest first *)
}.

Definition M (A : Type) : Type := world -> result A * world.

Definition ret {A} (a : A) : M A := fun w => (Return a, w).
Definition raise {A} (e : exception) : M A := fun w => (Raise e, w).
Definition lift {A} (r : result A) : M A := fun w => (r, w).

Definition bind {A B} (m : M A) (k : A -> M B) : M B :=
  fun w =>
    match m w with
    | (Return a, w') => k a w'
    | (Raise e, w') => (Raise e, w')
    end.

Declare Scope io_scope.
Delimit Scope io_scope with io.
Notation "x <- m ;; k" := (bind m (fun x => k))
  (at level 61, m at next level, right associativity) : io_scope.
Notation "m ;; k" := (bind m (fun _ => k))
  (at level 61, right associativity) : io_scope.

Definition print (line : str) : M unit :=
  fun w => (Return tt, {| stdout := stdout w ++ [line];
                          requests := requests w |}).

Definition BASE_URL : str := u "https://books.toscrape.com/".

Definition range (start stop : Z) : list Z :=
  map (fun i => start + Z.of_nat i)%Z (seq 0 (Z.to_nat (stop - start))).

(** The URL chosen at the head of the loop body. *)
Definition page_url (page : Z) : str :=
  if (page =? 1)%Z then BASE_URL
  else BASE_URL ++ u "catalogue/page-" ++ str_of_int page ++ u ".html".

Section Scraper.

(** [BeautifulSoup(html, "lxml")]: the parser is lenient and total. *)
Variable BeautifulSoup : str -> PageElement.

(** The remote site: what a GET of a URL gives, after the requests already
    made.  Either the transfer fails or a response comes back. *)
Variable site : list str -> str -> RequestException + Response.

Definition parse_books (html : str) : result (list book) :=
  let soup := BeautifulSoup html in
  mapM book_of (select article_product_pod soup).

(** [requests.get(url, headers=HEADERS, timeout=15)] *)
Definition requests_get (url : str) : M Response :=
  fun w =>
    let w' := {| stdout := stdout w; requests := requests w ++ [url] |} in
    match site (requests w) url with
    | inl e => (Raise (Requests e), w')
    | inr resp => (Return resp, w')
    end.

(** [resp.raise_for_status()] *)
Definition raise_for_status (resp : Response) : M unit :=
  if ((400 <=? status_code resp) && (status_code resp <? 600))%Z
  then raise (Requests (HTTPError (status_code resp)))
  else ret tt.

Definition get_page (url : str) : M str :=
  (print (u "Fetching: " ++ url) ;;
   resp <- requests_get url ;;
   raise_for_status resp ;;
   ret (text resp))%io.

(** The loop of [scrape_books] over the remaining pages, with the list
    [all_books] it extends. *)
Fixpoint for_pages (pages : list Z) (all_books : list book)
  : M (list book) :=
  match pages with
  | [] => ret all_books
  | page :: pages' =>
      (html <- get_page (page_url page) ;;
       page_books <- lift (parse_books html) ;;
       print (u "  -> found " ++ str_of_int (Z.of_nat (length page_books))
                ++ u " books on page " ++ str_of_int page) ;;
       for_pages pages' (all_books ++ page_books))%io
  end.

Definition scrape_books (num_pages : Z) : M (DataFrame NormalizedBookRecord) :=
  (all_books <- for_pages (range 1 (num_pages + 1)) [] ;;
   lift (clean_prices (pd_DataFrame all_books)))%io.

(** *** A pure reading of the loop, used to state its properties *)

(** What [get_page] hands to the loop body for [page] when [hist] is the
    list of requests already made. *)
Definition fetched_html (hist : list str) (page : Z) : result str :=
  match site hist (page_url page) with
  | inl e => Raise (Requests e)
  | inr resp =>
      if ((400 <=? status_code resp) && (status_code resp <? 600))%Z
      then Raise (Requests (HTTPError (status_code resp)))
      else Return (text resp)
  end.

(** The records of one page: fetch, then extract. *)
Definition page_books (hist : list str) (page : Z) : result (list book) :=
  (html <- fetched_html hist page ;; parse_books html)%result.

(** The records of each page of [pages], visited in that order. *)
Fixpoint per_page (hist : list str) (pages : list Z)
  : result (list (list book)) :=
  match pages with
  | [] => Return []
  | page :: pages' =>
      (bs <- page_books hist page ;;
       rest <- per_page (hist ++ [page_url page]) pages' ;;
       Return (bs :: rest))%result
  end.

End Scraper.

(** ** Vocabulary of the specification *)

(** The price normalizer on one string: what [clean_prices] computes for
    each element of the column. *)
Definition price_clean_of (price_raw : str) : result float :=
  py_float (re_sub not_digit_or_dot [] price_raw).

(** The specification's wording of the filter: keep the decimal digits and
    the point, drop everything else. *)
Definition keep_digits_and_dots (s : str) : str :=
  filter (fun c => is_digit c || is_dot c) s.

Definition count_dots (s : str) : nat := length (filter is_dot s).

(** The binary64 number written [51.77]. *)
Definition float_51_77 : float :=
  Finite (Qmake 7285979772155331 140737488355328).

(** What the cleaning promises for a row: its [price_clean] is the float
    read from the digit-and-dot remainder of its [price_raw], and it is not
    negative. *)
Definition price_is_cleaned (r : NormalizedBookRecord) : Prop :=
  py_float (keep_digits_and_dots (price_raw (raw r)))
  = Return (price_clean r) /\
  float_leb (Finite 0) (price_clean r) = true.

(** The frame with the single record [b] once its price is [x]. *)
Definition one_row_table (b : book) (x : float)
  : DataFrame NormalizedBookRecord :=
  {| columns := [u "title"; u "price_raw"; u "availability"; u "rating";
                 u "price_clean"];
     rows := [{| raw := b; price_clean := x |}] |}.

(** The [price_clean] column of the outcome of the cleaning. *)
Definition price_column (r : result (DataFrame NormalizedBookRecord))
  : result (list float) :=
  match r with
  | Return df => Return (map price_clean (rows df))
  | Raise e => Raise e
  end.

(** The string an exception carries, if any. *)
Definition exception_arg (e : exception) : option str :=
  match e with
  | AttributeError a => Some a
  | KeyError k => Some k
  | ValueError a => Some a
  | TypeError => None
  | Requests _ => None
  end.

(** The [title] attribute of the anchor inside the heading of a node. *)
Definition title_attr (art : PageElement) : option str :=
  match find (u "h3") art with
  | Some h3 =>
      match find (u "a") h3 with
      | Some a => lookup (u "title") (tag_attrs a)
      | None => None
      end
  | None => None
  end.

(** The three fields a product node must have. *)
Definition required_fields_present (art : PageElement) : Prop :=
  title_attr art <> None /\
  select_one p_price_color art <> None /\
  select_one p_instock_availability art <> None.

(** The exceptions a missing element raises in [parse_books]. *)
Definition is_parse_failure (e : exception) : Prop :=
  (exists a, e = AttributeError a) \/ e = TypeError \/ (exists k, e = KeyError k).

(** The five rating ordinals. *)
Definition rating_ordinals : list str :=
  [u "One"; u "Two"; u "Three"; u "Four"; u "Five"].

(** The column invariant as the specification words it. *)
Definition spec_record_invariant (r : NormalizedBookRecord) : Prop :=
  (rating (raw r) = None \/
   exists o, In o rating_ordinals /\ rating (raw r) = Some o) /\
  title (raw r) <> [] /\ availability (raw r) <> [].

(** The pages of a run of [num_pages] pages, and the requests made before
    the loop reaches [page] when it started after [hist]. *)
Definition pages_of (num_pages : Z) : list Z := range 1 (num_pages + 1).

Definition hist_before (hist : list str) (page : Z) : list str :=
  hist ++ map page_url (range 1 page).

(** ** The consumers of the table: [app.py] and [books_analysis.py] *)

(** [a < b] on the numbers of a price column. *)
Definition Qlt_bool (a b : Q) : bool := negb (Qle_bool b a).

(** A reduction of a column that keeps the first of the best values:
    [better y m] says that [y] replaces the best value [m] seen so far. *)
Definition series_best {T : Type} (better : T -> T -> bool) (s : list T)
  : option T :=
  match s with
  | [] => None
  | x :: s' => Some (fold_left (fun m y => if better y m then y else m) s' x)
  end.

(** [series.min()] and [series.max()]; [None] is the NaN an empty column
    gives. *)
Definition series_min : list Q -> option Q := series_best Qlt_bool.
Definition series_max : list Q -> option Q :=
  series_best (fun y m => Qlt_bool m y).

(** The same on the [price_clean] column of a scraped table, which holds
    floats. *)
Definition price_min : list float -> option float := series_best float_ltb.
Definition price_max : list float -> option float :=
  series_best (fun y m => float_ltb m y).

(** The position of the first occurrence of the best value, scanning [s]
    from position [i] with the best value [best] found at [best_i]. *)
Fixpoint argbest_from (better : Q -> Q -> bool) (s : list Q) (i : nat)
         (best : Q) (best_i : nat) : nat :=
  match s with
  | [] => best_i
  | y :: s' =>
      if better y best then argbest_from better s' (S i) y i
      else argbest_from better s' (S i) best best_i
  end.

(** [series.idxmin()] and [series.idxmax()] under the default index
    0, 1, 2, ...; [None] is the [ValueError] an empty column gives. *)
Definition idxmin (s : list Q) : option nat :=
  match s with
  | [] => None
  | x :: s' => Some (argbest_from Qlt_bool s' 1 x 0)
  end.

Definition idxmax (s : list Q) : option nat :=
  match s with
  | [] => None
  | x :: s' => Some (argbest_from (fun y m => Qlt_bool m y) s' 1 x 0)
  end.

(** [books_analysis.py]: [df.loc[df["price_clean"].idxmin(), "title"]] and
    its [idxmax] twin, on a frame read with the default index.  The rows
    are whatever [read_csv] made of the file; the price column holds
    numbers. *)
Definition cheapest_book {row T : Type} (title_of : row -> T)
           (price_of : row -> Q) (df : list row) : option T :=
  match idxmin (map price_of df) with
  | Some i => option_map title_of (nth_error df i)
  | None => None
  end.

Definition costliest_book {row T : Type} (title_of : row -> T)
           (price_of : row -> Q) (df : list row) : option T :=
  match idxmax (map price_of df) with
  | Some i => option_map title_of (nth_error df i)
  | None => None
  end.

(** [df[mask]]: the rows where the mask holds, in the order of [df]. *)
Definition df_mask {row : Type} (mask : row -> bool) (df : DataFrame row)
  : DataFrame row :=
  {| columns := columns df; rows := filter mask (rows df) |}.

(** One element of [series.isin(values)] on the rating column: a null
    rating is in no list of strings. *)
Definition isin (v : option str) (values : list str) : bool :=
  match v with
  | Some s => existsb (str_eqb s) values
  | None => false
  end.

(** [(price_clean >= price_range[0]) & (price_clean <= price_range[1])] *)
Definition in_price_range (price_range : float * float)
           (r : NormalizedBookRecord) : bool :=
  float_leb (fst price_range) (price_clean r)
  && float_leb (price_clean r) (snd price_range).

Section Dashboard.

(** The regular-expression engine behind
    [series.str.contains(pat, case=False)]: the case-insensitive search of
    a compiled pattern, [None] when [pat] is not a pattern ([re.error]). *)
Variable re_search_ignorecase : str -> option (str -> bool).

(** The "Apply filters" block of [app.py]; [None] when the keyword makes
    [str.contains] raise. *)
Definition apply_filters (search_keyword : str) (rating_filter : list str)
           (price_range : float * float) (df : DataFrame NormalizedBookRecord)
  : option (DataFrame NormalizedBookRecord) :=
  let filtered_df := df in
  match
    (if nonempty search_keyword
     then match re_search_ignorecase search_keyword with
          | Some search =>
              Some (df_mask (fun r => search (title (raw r))) filtered_df)
          | None => None
          end
     else Some filtered_df)
  with
  | None => None
  | Some filtered_df =>
      let filtered_df :=
        match rating_filter with
        | [] => filtered_df
        | _ :: _ =>
            df_mask (fun r => isin (rating (raw r)) rating_filter) filtered_df
        end in
      Some (df_mask (in_price_range price_range) filtered_df)
  end.

End Dashboard.

(** ** Vocabulary of the further properties *)

(** [s] neither starts nor ends with a blank. *)
Definition no_outer_space (s : str) : Prop :=
  (forall c rest, s = c :: rest -> isspace c = false) /\
  (forall pre c, s = pre ++ [c] -> isspace c = false).

(** [l1] is [l2] with some elements left out: same order, nothing added. *)
Inductive sublist {A : Type} : list A -> list A -> Prop :=
| sublist_nil : sublist [] []
| sublist_skip x l1 l2 : sublist l1 l2 -> sublist l1 (x :: l2)
| sublist_keep x l1 l2 : sublist l1 l2 -> sublist (x :: l1) (x :: l2).

(** The two lines [scrape_books] prints for a page with [n] records. *)
Definition progress_lines (page : Z) (n : nat) : list str :=
  [u "Fetching: " ++ page_url page;
   u "  -> found " ++ str_of_int (Z.of_nat n)
     ++ u " books on page " ++ str_of_int page].

(** The labels of a returned table. *)
Definition table_columns : list str :=
  [u "title"; u "price_raw"; u "availability"; u "rating"; u "price_clean"].

(** ** Fixtures *)

Module Fixtures.

(** A product node as the site writes it. *)
Definition pod (t price avail : str) (rating_class : list str) : PageElement :=
  Tag (u "article") [] [u "product_pod"]
    [ Tag (u "div") [] [u "image_container"]
        [ Tag (u "a") [(u "href", u "x.html")] []
            [ Tag (u "img") [(u "alt", t)] [u "thumbnail"] [] ] ];
      Tag (u "p") [] rating_class [ Tag (u "i") [] [u "icon-star"] [] ];
      Tag (u "h3") []  []
        [ Tag (u "a") [(u "href", u "x.html"); (u "title", t)] []
            [ NavigableString t ] ];
      Tag (u "div") [] [u "product_price"]
        [ Tag (u "p") [] [u "price_color"] [ NavigableString price ];
          Tag (u "p") [] [u "instock"; u "availability"]
            [ Tag (u "i") [] [u "icon-ok"] [];
              NavigableString (10%N :: u "    " ++ avail ++ u "  " ++ [10%N]) ] ] ].

Definition document (body : list PageElement) : PageElement :=
  Tag (u "[document]") [] []
    [ Tag (u "html") [] []
        [ Tag (u "head") [] [] [ Tag (u "title") [] [] [ NavigableString (u "Books") ] ];
          Tag (u "body") [] [] body ] ].

Definition pound : char := 163%N.
Definition a_circumflex : char := 194%N.

Definition pod_a : PageElement :=
  pod (u "A Light in the Attic") (pound :: u "51.77") (u "In stock")
      [u "star-rating"; u "Three"].
Definition pod_b : PageElement :=
  pod (u "Tipping the Velvet") (a_circumflex :: pound :: u "53.74") (u "In stock")
      [u "star-rating"; u "One"].
(** The class tokens in the other order: the second one is the marker. *)
Definition pod_swapped : PageElement :=
  pod (u "Soumission") (pound :: u "50.10") (u "In stock")
      [u "Three"; u "star-rating"].
(** The rating element has the marker only. *)
Definition pod_unrated : PageElement :=
  pod (u "Sharp Objects") (pound :: u "47.82") (u "In stock") [u "star-rating"].
(** No price element. *)
Definition pod_no_price : PageElement :=
  Tag (u "article") [] [u "product_pod"]
    [ Tag (u "h3") [] [] [ Tag (u "a") [(u "title", u "Sapiens")] [] [] ];
      Tag (u "p") [] [u "instock"; u "availability"] [ NavigableString (u "In stock") ] ].
(** An empty title, an empty stock text and no rating element. *)
Definition pod_blank : PageElement :=
  Tag (u "article") [] [u "product_pod"]
    [ Tag (u "h3") [] [] [ Tag (u "a") [(u "title", [])] [] [] ];
      Tag (u "p") [] [u "price_color"] [ NavigableString (pound :: u "1.00") ];
      Tag (u "p") [] [u "instock"; u "availability"] [ NavigableString (u "   ") ] ].
(** A price the cleaning cannot read. *)
Definition pod_free : PageElement :=
  pod (u "Free") (u "abc") (u "In stock") [u "star-rating"; u "Two"].

(** A toy parser: the markup is the name of a document. *)
Definition parser (html : str) : PageElement :=
  if str_eqb html (u "page-ab") then document [pod_a; pod_b]
  else if str_eqb html (u "page-a") then document [pod_a; pod_unrated]
  else if str_eqb html (u "page-odd") then document [pod_swapped; pod_blank]
  else if str_eqb html (u "page-torn") then document [pod_a; pod_no_price]
  else if str_eqb html (u "page-free") then document [pod_free]
  else document [].

Definition ok (html : str) : RequestException + Response :=
  inr {| status_code := 200; text := html |}.

(** Three sites, each keyed by the URL alone. *)
Definition site_good (hist : list str) (url : str) : RequestException + Response :=
  if str_eqb url (page_url 1) then ok (u "page-ab")
  else if str_eqb url (page_url 2) then ok (u "page-a")
  else if str_eqb url (page_url 3) then ok (u "page-odd")
  else inr {| status_code := 404; text := u "Not Found" |}.

Definition site_flaky (hist : list str) (url : str) : RequestException + Response :=
  if str_eqb url (page_url 2) then inl Timeout else site_good hist url.

Definition site_empty (hist : list str) (url : str) : RequestException + Response :=
  ok (u "nothing here").

Definition site_odd (hist : list str) (url : str) : RequestException + Response :=
  ok (u "page-odd").

Definition w0 : world := {| stdout := []; requests := [] |}.

Definition no_table : DataFrame NormalizedBookRecord :=
  {| columns := []; rows := [] |}.

Definition table_of (r : result (DataFrame NormalizedBookRecord) * world)
  : DataFrame NormalizedBookRecord :=
  match fst r with
  | Return df => df
  | Raise _ => no_table
  end.

(** Three pages of the good site, and one page of the odd one. *)
Definition table_good : DataFrame NormalizedBookRecord :=
  Eval vm_compute in table_of (scrape_books parser site_good 3 w0).
Definition world_good : world :=
  Eval vm_compute in snd (scrape_books parser site_good 3 w0).
Definition table_odd : DataFrame NormalizedBookRecord :=
  Eval vm_compute in table_of (scrape_books parser site_odd 1 w0).
Definition world_odd : world :=
  Eval vm_compute in snd (scrape_books parser site_odd 1 w0).

(** The records of the first page of the flaky site. *)
Definition first_page_books : list book :=
  Eval vm_compute in
    match parse_books parser (u "page-ab") with
    | Return bs => bs
    | Raise _ => []
    end.

(** The flaky site: the world after page 1, and after the failed fetch of
    page 2. *)
Definition world_after_first : world :=
  Eval vm_compute in snd (for_pages parser site_flaky (range 1 2) [] w0).
Definition world_after_failure : world :=
  Eval vm_compute in snd (get_page site_flaky (page_url 2) world_after_first).

(** The rating element of [pod_swapped]. *)
Definition rating_tag_swapped : PageElement :=
  Tag (u "p") [] [u "Three"; u "star-rating"] [ Tag (u "i") [] [u "icon-star"] [] ].

(** The rating element of [pod_unrated]. *)
Definition rating_tag_unrated : PageElement :=
  Tag (u "p") [] [u "star-rating"] [ Tag (u "i") [] [u "icon-star"] [] ].

End Fixtures.


(** ** More fixtures *)

Module MoreFixtures.

(** Page 2 has a node without price. *)
Definition site_torn (hist : list str) (url : str)
  : RequestException + Response :=
  if str_eqb url (page_url 2) then Fixtures.ok (u "page-torn")
  else Fixtures.site_good hist url.

(** Page 2 has a price that cannot be read. *)
Definition site_free (hist : list str) (url : str)
  : RequestException + Response :=
  if str_eqb url (page_url 2) then Fixtures.ok (u "page-free")
  else Fixtures.site_good hist url.

Definition world_torn_1 : world :=
  Eval vm_compute in
    snd (for_pages Fixtures.parser site_torn (range 1 2) [] Fixtures.w0).
Definition world_torn_2 : world :=
  Eval vm_compute in snd (get_page site_torn (page_url 2) world_torn_1).

(** The records of the odd page. *)
Definition odd_page_books : list book :=
  Eval vm_compute in
    match parse_books Fixtures.parser (u "page-odd") with
    | Return bs => bs
    | Raise _ => []
    end.

(** The first page of the good site, once cleaned. *)
Definition table_first_page : DataFrame NormalizedBookRecord :=
  Eval vm_compute in
    match clean_prices (pd_DataFrame Fixtures.first_page_books) with
    | Return df => df
    | Raise _ => Fixtures.no_table
    end.

Definition books_of_run (r : result (list book) * world) : list book :=
  match fst r with
  | Return l => l
  | Raise _ => []
  end.

Definition world_free : world :=
  Eval vm_compute in
    snd (for_pages Fixtures.parser site_free (range 1 (2 + 1)) [] Fixtures.w0).

Definition world_good_2 : world :=
  Eval vm_compute in
    snd (for_pages Fixtures.parser Fixtures.site_good (range 1 (2 + 1)) []
           Fixtures.w0).
Definition books_good_2 : list book :=
  Eval vm_compute in
    books_of_run (for_pages Fixtures.parser Fixtures.site_good
                    (range 1 (2 + 1)) [] Fixtures.w0).

(** The lowest and the highest price of the three good pages. *)
Definition price_or_inf (o : option float) : float :=
  match o with
  | Some x => x
  | None => Inf
  end.

Definition good_min : float :=
  Eval vm_compute in
    price_or_inf (price_min (map price_clean (rows Fixtures.table_good))).
Definition good_max : float :=
  Eval vm_compute in
    price_or_inf (price_max (map price_clean (rows Fixtures.table_good))).

(** A toy pattern engine: plain substring search, no pattern is refused
    except ["("]. *)
Fixpoint starts_with (p s : str) : bool :=
  match p, s with
  | [], _ => true
  | _ :: _, [] => false
  | a :: p', b :: s' => N.eqb a b && starts_with p' s'
  end.

Fixpoint substring (p s : str) : bool :=
  starts_with p s ||
  match s with
  | [] => false
  | _ :: s' => substring p s'
  end.

Definition toy_search (pat : str) : option (str -> bool) :=
  if str_eqb pat (u "(") then None else Some (substring pat).

(** Three rows as [read_csv] could give them: a title and a price. *)
Definition shelf : list (String.string * Q) :=
  [("Dune"%string, 12 # 1); ("Emma"%string, 7 # 2); ("Ulysses"%string, 12 # 1);
   ("Omoo"%string, 7 # 2)]%Q.

End MoreFixtures.

(** * Properties *)

(** ** Strings and the result monad *)

Lemma str_eqb_refl (s : str) : str_eqb s s = true.
Proof.
  induction s as [|c s IH]; simpl; [reflexivity|].
  now rewrite N.eqb_refl, IH.
Qed.

Lemma str_eqb_eq (a b : str) : str_eqb a b = true <-> a = b.
Proof.
  split; [|intros ->; apply str_eqb_refl].
  revert b; induction a as [|x a IH]; intros [|y b]; simpl; try easy.
  intros H; apply andb_true_iff in H as [Hx Hab].
  apply N.eqb_eq in Hx; apply IH in Hab; congruence.
Qed.

Lemma Forall2_In_l {A B} (R : A -> B -> Prop) (l : list A) (l' : list B)
      (x : A) :
  Forall2 R l l' -> In x l -> exists y, In y l' /\ R x y.
Proof.
  induction 1 as [|a b l l' Hab _ IH]; simpl; [easy|].
  intros [<- | Hin]; [exists b; auto|].
  destruct (IH Hin) as (y & Hy & Hxy); exists y; auto.
Qed.

Lemma Forall2_In_r {A B} (R : A -> B -> Prop) (l : list A) (l' : list B)
      (y : B) :
  Forall2 R l l' -> In y l' -> exists x, In x l /\ R x y.
Proof.
  induction 1 as [|a b l l' Hab _ IH]; simpl; [easy|].
  intros [<- | Hin]; [exists a; auto|].
  destruct (IH Hin) as (x & Hx & Hxy); exists x; auto.
Qed.

Section MapM.
Context {A B : Type} (f : A -> result B).

Lemma mapM_Return (l : list A) (ys : list B) :
  mapM f l = Return ys <-> Forall2 (fun x y => f x = Return y) l ys.
Proof.
  revert ys; induction l as [|x l IH]; intros ys; simpl.
  - split; [intros [= <-]; constructor | intros H; inversion H; reflexivity].
  - split.
    + destruct (f x) as [y|e] eqn:Hx; simpl; [|discriminate].
      destruct (mapM f l) as [ys'|e] eqn:Hl; simpl; [|discriminate].
      intros [= <-]; constructor; [assumption | now apply IH].
    + intros H; inversion H as [|x' y l' ys' Hx Hl]; subst.
      rewrite Hx; simpl. apply IH in Hl; rewrite Hl; reflexivity.
Qed.

Lemma mapM_length (l : list A) (ys : list B) :
  mapM f l = Return ys -> length ys = length l.
Proof.
  intros H; apply mapM_Return in H.
  symmetry; eapply Forall2_length; eassumption.
Qed.

(** One failing element makes the whole loop fail, with the exception of
    the first element that fails. *)
Lemma mapM_Raise_In (l : list A) (x : A) (e : exception) :
  In x l -> f x = Raise e ->
  exists x' e', In x' l /\ f x' = Raise e' /\ mapM f l = Raise e'.
Proof.
  induction l as [|a l IH]; simpl; [easy|].
  intros Hin Hx.
  destruct (f a) as [y|ea] eqn:Ha; simpl.
  - destruct Hin as [-> | Hin]; [congruence|].
    destruct (IH Hin Hx) as (x' & e' & Hin' & Hx' & Hm).
    exists x', e'; rewrite Hm; simpl; auto.
  - exists a, ea; auto.
Qed.

Lemma mapM_all_Return (l : list A) :
  (forall x, In x l -> exists y, f x = Return y) ->
  exists ys, mapM f l = Return ys.
Proof.
  induction l as [|a l IH]; simpl; intros H; [now exists []|].
  destruct (H a (or_introl eq_refl)) as [y Hy]; rewrite Hy; simpl.
  destruct IH as [ys Hys]; [intros x Hx; apply H; now right|].
  rewrite Hys; simpl; now exists (y :: ys).
Qed.
End MapM.

(** ** Price cleaning *)

Lemma class_not_digit_or_dot (c : char) :
  class_matches not_digit_or_dot c = negb (is_digit c || is_dot c).
Proof.
  unfold class_matches, not_digit_or_dot, is_digit, is_dot; simpl.
  now rewrite orb_false_r.
Qed.

(** The substitution of the code is the filter of the specification. *)
Lemma re_sub_keep (s : str) :
  re_sub not_digit_or_dot [] s = keep_digits_and_dots s.
Proof.
  induction s as [|c s IH]; simpl; [reflexivity|].
  rewrite class_not_digit_or_dot, IH.
  now destruct (is_digit c || is_dot c).
Qed.

Lemma re_sub_alphabet (s : str) :
  forallb (fun c => is_digit c || is_dot c) (re_sub not_digit_or_dot [] s) = true.
Proof.
  rewrite re_sub_keep; unfold keep_digits_and_dots.
  apply forallb_forall; intros c Hc; now apply filter_In in Hc.
Qed.

Lemma span_digits_spec (s ip rest : str) :
  span_digits s = (ip, rest) ->
  s = ip ++ rest /\ forallb is_digit ip = true.
Proof.
  revert ip rest; induction s as [|c s IH]; simpl; intros ip rest.
  - intros [= <- <-]; auto.
  - destruct (is_digit c) eqn:Hc.
    + destruct (span_digits s) as [ds r]; intros [= <- <-].
      destruct (IH ds r eq_refl) as [-> Hds]; simpl; rewrite Hc; auto.
    + intros [= <- <-]; auto.
Qed.

Lemma digits_no_dot (s : str) : forallb is_digit s = true -> count_dots s = 0.
Proof.
  unfold count_dots; induction s as [|c s IH]; simpl; [reflexivity|].
  intros H; apply andb_true_iff in H as [Hc Hs].
  replace (is_dot c) with false; [auto|].
  unfold is_digit, is_dot in *; symmetry; apply N.eqb_neq.
  apply andb_true_iff in Hc as [H1 H2]; apply N.leb_le in H1; lia.
Qed.

Lemma count_dots_app (a b : str) :
  count_dots (a ++ b) = count_dots a + count_dots b.
Proof. unfold count_dots; now rewrite filter_app, length_app. Qed.

Lemma value_of_nonneg (m : positive) (e : Z) : (0 <= value_of m e)%Q.
Proof.
  unfold value_of, Qle, inject_Z; destruct e as [|p|p]; cbn [Qnum Qden].
  - lia.
  - pose proof (Z.pow_pos_nonneg 2 (Z.pos p)); nia.
  - lia.
Qed.

Lemma binary_round_aux_nonneg (mx ex : Z) (lx : SpecFloat.location) :
  float_leb (Finite 0)
            (float_of_spec (SpecFloat.binary_round_aux 53 1024 false mx ex lx))
  = true.
Proof.
  unfold SpecFloat.binary_round_aux.
  destruct (SpecFloat.shr_fexp 53 1024 mx ex lx) as [mrs1 e1].
  destruct (SpecFloat.shr_fexp 53 1024 _ e1 SpecFloat.loc_Exact) as [mrs2 e2].
  destruct (SpecFloat.shr_m mrs2) as [|m|m]; [reflexivity | | reflexivity].
  destruct (Z.leb e2 (1024 - 53)); [|reflexivity].
  cbn [float_of_spec float_leb]; apply Qle_bool_iff.
  rewrite Qred_correct; apply value_of_nonneg.
Qed.

Lemma decimal_nonneg (ip fp : str) :
  float_leb (Finite 0) (decimal ip fp) = true.
Proof.
  unfold decimal, strtod.
  destruct (int_of_digits (ip ++ fp)) as [|n]; [reflexivity|].
  unfold SpecFloat.SFdiv.
  destruct (SpecFloat.SFdiv_core_binary 53 1024 _ _ _ _) as [[mz ez] lz].
  apply binary_round_aux_nonneg.
Qed.

(** The conversion gives a zero, a positive finite number or the positive
    infinity, never a NaN: the two last cases of [float_of_spec] are not
    reached. *)
Lemma shr_1_nonneg (mrs : SpecFloat.shr_record) :
  (0 <= SpecFloat.shr_m mrs)%Z ->
  (0 <= SpecFloat.shr_m (SpecFloat.shr_1 mrs))%Z.
Proof.
  destruct mrs as [m r s]; destruct m as [|[p|p|]|p]; cbn; lia.
Qed.

Lemma iter_pos_invariant {A} (P : A -> Prop) (f : A -> A) :
  (forall x, P x -> P (f x)) ->
  forall p x, P x -> P (SpecFloat.iter_pos f p x).
Proof.
  intros Hf; induction p as [p IH|p IH|]; intros x Hx; cbn; auto.
Qed.

Lemma shr_fexp_nonneg (m e : Z) (l : SpecFloat.location) :
  (0 <= m)%Z ->
  (0 <= SpecFloat.shr_m (fst (SpecFloat.shr_fexp 53 1024 m e l)))%Z.
Proof.
  intros Hm; unfold SpecFloat.shr_fexp, SpecFloat.shr.
  assert (H0 : (0 <= SpecFloat.shr_m (SpecFloat.shr_record_of_loc m l))%Z)
    by (destruct l as [|[]]; exact Hm).
  destruct (_ - e)%Z as [|p|p]; cbn [fst]; [exact H0| |exact H0].
  apply (iter_pos_invariant
           (fun mrs => (0 <= SpecFloat.shr_m mrs)%Z)); [|exact H0].
  apply shr_1_nonneg.
Qed.

Lemma binary_round_aux_shape (mx ex : Z) (lx : SpecFloat.location) :
  (0 <= mx)%Z ->
  let x := SpecFloat.binary_round_aux 53 1024 false mx ex lx in
  x = SpecFloat.S754_zero false \/
  x = SpecFloat.S754_infinity false \/
  exists m e, x = SpecFloat.S754_finite false m e.
Proof.
  intros Hmx; cbv zeta; unfold SpecFloat.binary_round_aux.
  pose proof (@shr_fexp_nonneg mx ex lx Hmx) as H1.
  destruct (SpecFloat.shr_fexp 53 1024 mx ex lx) as [mrs1 e1];
    cbn [fst] in H1.
  assert (Hr : (0 <= SpecFloat.round_nearest_even
                       (SpecFloat.shr_m mrs1)
                       (SpecFloat.loc_of_shr_record mrs1))%Z).
  { unfold SpecFloat.round_nearest_even.
    destruct (SpecFloat.loc_of_shr_record mrs1) as [|[]];
      try destruct (Z.even _); lia. }
  pose proof (@shr_fexp_nonneg _ e1 SpecFloat.loc_Exact Hr) as H2.
  destruct (SpecFloat.shr_fexp 53 1024 _ e1 SpecFloat.loc_Exact)
    as [mrs2 e2]; cbn [fst] in H2.
  destruct (SpecFloat.shr_m mrs2) as [|m|m]; [now left | | lia].
  destruct (Z.leb e2 (1024 - 53)); [right; right; eauto | right; now left].
Qed.

Lemma strtod_shape (n : N) (d : positive) :
  strtod n d = SpecFloat.S754_zero false \/
  strtod n d = SpecFloat.S754_infinity false \/
  exists m e, strtod n d = SpecFloat.S754_finite false m e.
Proof.
  unfold strtod; destruct n as [|p]; [now left|].
  unfold SpecFloat.SFdiv, SpecFloat.SFdiv_core_binary.
  set (m' := match _ with Zpos _ => _ | Z0 => _ | Zneg _ => _ end).
  assert (Hm' : (0 <= m')%Z).
  { subst m'; destruct (_ - _)%Z; [lia | apply Z.shiftl_nonneg; lia | lia]. }
  destruct (Z.div_eucl m' (Zpos d)) as [q r] eqn:Hdiv.
  assert (Hq : (0 <= q)%Z).
  { replace q with (m' / Zpos d)%Z by (unfold Z.div; now rewrite Hdiv).
    apply Z.div_pos; lia. }
  cbn [xorb]; now apply binary_round_aux_shape.
Qed.

Lemma py_float_nonneg (s : str) (q : float) :
  py_float s = Return q -> float_leb (Finite 0) q = true.
Proof.
  unfold py_float; destruct (span_digits s) as [ip rest].
  destruct rest as [|c fp].
  - destruct (nonempty ip); [intros [= <-]; apply decimal_nonneg | discriminate].
  - destruct (_ && _); [intros [= <-]; apply decimal_nonneg | discriminate].
Qed.

(** The only exception [float] raises names its argument. *)
Lemma py_float_Raise (s : str) (e : exception) :
  py_float s = Raise e -> e = ValueError s.
Proof.
  unfold py_float; destruct (span_digits s) as [ip rest].
  destruct rest as [|c fp].
  - destruct (nonempty ip); [discriminate | now intros [= <-]].
  - destruct (_ && _); [discriminate | now intros [= <-]].
Qed.

Lemma py_float_two_dots (s : str) :
  2 <= count_dots s -> py_float s = Raise (ValueError s).
Proof.
  intros Hdots; unfold py_float.
  destruct (span_digits s) as [ip rest] eqn:Hspan.
  apply span_digits_spec in Hspan as [-> Hip].
  rewrite count_dots_app, (digits_no_dot _ Hip) in Hdots; simpl in Hdots.
  destruct rest as [|c fp]; [cbn in Hdots; lia|].
  destruct (is_dot c) eqn:Hc; simpl; [|reflexivity].
  destruct (forallb is_digit fp) eqn:Hfp; simpl; [|reflexivity].
  exfalso. change (c :: fp) with ([c] ++ fp) in Hdots.
  rewrite count_dots_app, (digits_no_dot _ Hfp) in Hdots.
  unfold count_dots in Hdots; simpl in Hdots; rewrite Hc in Hdots.
  simpl in Hdots; lia.
Qed.

(** The conversion rounds to the nearest binary64 number, ties to even, and
    overflows to infinity. *)
Example py_float_rounds :
  py_float (u "1.00000000000000000001") = Return (Finite 1) /\
  py_float (u "9007199254740993") = Return (Finite (inject_Z 9007199254740992)) /\
  py_float (u "0.1")
  = Return (Finite (Qmake 3602879701896397 36028797018963968)) /\
  py_float (repeat 57%N 400) = Return Inf.
Proof. repeat split; vm_compute; reflexivity. Qed.

(** What a successful normalization returns. *)
Lemma price_normalizer_value_aux (pr : str) (q : float) :
  price_clean_of pr = Return q ->
  py_float (keep_digits_and_dots pr) = Return q /\
  float_leb (Finite 0) q = true.
Proof.
  unfold price_clean_of; rewrite re_sub_keep; intros H.
  split; [exact H | eapply py_float_nonneg; eassumption].
Qed.

(** ** The price column of a frame *)

Lemma clean_prices_empty :
  clean_prices (pd_DataFrame []) = Raise (KeyError (u "price_raw")).
Proof. reflexivity. Qed.

Lemma clean_prices_nonempty (records : list book) :
  records <> [] ->
  clean_prices (pd_DataFrame records) =
  (series <- astype_float
               (str_replace not_digit_or_dot [] (map price_raw records)) ;;
   Return (df_setitem_price_clean (pd_DataFrame records) series))%result.
Proof. destruct records as [|b bs]; [easy | reflexivity]. Qed.

(** When the cleaning succeeds the rows are the records, in order, each
    with its own price. *)
Lemma clean_prices_Return (records : list book)
      (df : DataFrame NormalizedBookRecord) :
  clean_prices (pd_DataFrame records) = Return df ->
  map raw (rows df) = records /\
  Forall (fun r => price_clean_of (price_raw (raw r)) = Return (price_clean r))
         (rows df).
Proof.
  destruct records as [|b0 bs0] eqn:Hrec; [discriminate|].
  rewrite <- Hrec; intros H.
  rewrite clean_prices_nonempty in H by (subst; discriminate).
  unfold astype_float, str_replace in H; rewrite map_map in H.
  destruct (mapM _ _) as [series|e] eqn:Hm; [|discriminate].
  simpl in H; injection H as <-; simpl.
  apply mapM_Return in Hm. clear Hrec.
  remember (map (fun x => re_sub not_digit_or_dot [] (price_raw x)) records)
    as col eqn:Hcol.
  revert records Hcol; induction Hm as [|x q col series Hx _ IH];
    intros [|b bs] Hcol; try discriminate; simpl; [auto|].
  injection Hcol as -> Hcol.
  destruct (IH bs Hcol) as [IH1 IH2]; split; [now rewrite IH1|].
  constructor; [exact Hx | exact IH2].
Qed.

(** C3, as the code has it.  A [price_raw] whose digit-and-dot remainder is
    empty, has several decimal points, or fails numeric parsing in any other
    way makes the normalizer raise [ValueError]; the exception carries the
    remainder (not the raw string).  No default value is produced: a frame
    holding such a price is not returned, the cleaning raises instead. *)
Theorem price_normalizer_failure (pr : str)
    (Hbad : keep_digits_and_dots pr = [] \/
            2 <= count_dots (keep_digits_and_dots pr) \/
            exists e, py_float (keep_digits_and_dots pr) = Raise e) :
  price_clean_of pr = Raise (ValueError (keep_digits_and_dots pr)) /\
  forall records b,
    In b records -> price_raw b = pr ->
    exists b', In b' records /\
      clean_prices (pd_DataFrame records)
      = Raise (ValueError (keep_digits_and_dots (price_raw b'))).
Proof.
  assert (Hraise : price_clean_of pr
                   = Raise (ValueError (keep_digits_and_dots pr))).
  { unfold price_clean_of; rewrite re_sub_keep.
    destruct Hbad as [Hnil | [Hdots | [e He]]].
    - rewrite Hnil; reflexivity.
    - now apply py_float_two_dots.
    - rewrite He; f_equal; now apply py_float_Raise. }
  split; [exact Hraise|].
  intros records b Hin Hb.
  rewrite clean_prices_nonempty by (intros ->; contradiction).
  unfold astype_float, str_replace; rewrite map_map.
  destruct (@mapM_Raise_In _ _ py_float
              (map (fun x => re_sub not_digit_or_dot [] (price_raw x)) records)
              (re_sub not_digit_or_dot [] pr)
              (ValueError (keep_digits_and_dots pr)))
    as (x' & e' & Hin' & Hx' & Hm).
  - apply in_map_iff; exists b; now rewrite Hb.
  - exact Hraise.
  - apply in_map_iff in Hin' as (b' & <- & Hb').
    exists b'; split; [assumption|].
    rewrite Hm; simpl. apply py_float_Raise in Hx'.
    now rewrite Hx', re_sub_keep.
Qed.

(** C3 on the price ["1.2.3"] inside a frame. *)
Lemma price_normalizer_failure_witness :
  2 <= count_dots (keep_digits_and_dots (u "x1.2.3")) /\
  price_clean_of (u "x1.2.3") = Raise (ValueError (u "1.2.3")).
Proof.
  split; [vm_compute; lia|].
  apply (price_normalizer_failure (u "x1.2.3")).
  right; left; vm_compute; lia.
Defined.

(** C3 as the specification words it fails on ["abc"]: the remainder is
    empty, and the exception raised does not carry the raw string. *)
Lemma price_error_omits_raw_string :
  keep_digits_and_dots (u "abc") = [] /\
  ~ (exists e, price_clean_of (u "abc") = Raise e /\
               exception_arg e = Some (u "abc")).
Proof.
  split; [reflexivity|].
  intros (e & He & Harg).
  vm_compute in He; injection He as <-.
  discriminate Harg.
Qed.

(** ** One product node *)

(** What a returned record holds, field by field. *)
Lemma book_of_Return (art : PageElement) (b : book) :
  book_of art = Return b ->
  title_attr art = Some (title b) /\
  (exists pe, select_one p_price_color art = Some pe /\
              price_raw b = stripped_text pe) /\
  (exists ae, select_one p_instock_availability art = Some ae /\
              availability b = stripped_text ae) /\
  rating b = rating_of (select_one p_star_rating art).
Proof.
  unfold book_of, title_attr; cbn [rbind].
  destruct (find (u "h3") art) as [h3|]; cbn [getattr_tag rbind]; [|discriminate].
  destruct (find (u "a") h3) as [a|]; cbn [getitem rbind]; [|discriminate].
  destruct (lookup (u "title") (tag_attrs a)) as [t|]; cbn [rbind]; [|discriminate].
  destruct (select_one p_price_color art) as [pe|];
    cbn [get_text_strip rbind]; [|discriminate].
  destruct (select_one p_instock_availability art) as [ae|];
    cbn [get_text_strip rbind]; [|discriminate].
  intros [= <-]; cbn.
  exact (conj eq_refl
           (conj (ex_intro _ pe (conj eq_refl eq_refl))
                 (conj (ex_intro _ ae (conj eq_refl eq_refl)) eq_refl))).
Qed.

Lemma book_of_present (art pe ae : PageElement) (t : str) :
  title_attr art = Some t ->
  select_one p_price_color art = Some pe ->
  select_one p_instock_availability art = Some ae ->
  book_of art = Return {| title := t;
                          price_raw := stripped_text pe;
                          availability := stripped_text ae;
                          rating := rating_of (select_one p_star_rating art) |}.
Proof.
  unfold book_of, title_attr; cbn [rbind].
  destruct (find (u "h3") art) as [h3|]; cbn [getattr_tag rbind]; [|discriminate].
  destruct (find (u "a") h3) as [a|]; cbn [getitem rbind]; [|discriminate].
  intros -> -> ->; reflexivity.
Qed.

Lemma book_of_Raise (art : PageElement) (e : exception) :
  book_of art = Raise e -> is_parse_failure e.
Proof.
  unfold book_of, is_parse_failure; cbn [rbind].
  destruct (find (u "h3") art) as [h3|]; cbn [getattr_tag rbind];
    [|intros [= <-]; eauto].
  destruct (find (u "a") h3) as [a|]; cbn [getitem rbind];
    [|intros [= <-]; eauto].
  destruct (lookup (u "title") (tag_attrs a)) as [t|]; cbn [rbind];
    [|intros [= <-]; eauto].
  destruct (select_one p_price_color art) as [pe|];
    cbn [get_text_strip rbind]; [|intros [= <-]; eauto].
  destruct (select_one p_instock_availability art) as [ae|];
    cbn [get_text_strip rbind]; [|intros [= <-]; eauto].
  discriminate.
Qed.

Lemma book_of_missing (art : PageElement) :
  title_attr art = None \/
  select_one p_price_color art = None \/
  select_one p_instock_availability art = None ->
  exists e, book_of art = Raise e.
Proof.
  intros Hmiss.
  destruct (book_of art) as [b|e] eqn:Hb; [|eauto].
  apply book_of_Return in Hb as (Ht & (pe & Hp & _) & (ae & Ha & _) & _).
  destruct Hmiss as [H | [H | H]]; congruence.
Qed.

Lemma book_of_required (art : PageElement) :
  required_fields_present art -> exists b, book_of art = Return b.
Proof.
  intros (Ht & Hp & Ha).
  destruct (title_attr art) as [t|] eqn:Et; [|easy].
  destruct (select_one p_price_color art) as [pe|] eqn:Ep; [|easy].
  destruct (select_one p_instock_availability art) as [ae|] eqn:Ea; [|easy].
  eexists; exact (book_of_present _ Et Ep Ea).
Qed.

Lemma rating_of_short (o : option PageElement) :
  o = None \/ (exists el, o = Some el /\ length (tag_class el) < 2) ->
  rating_of o = None.
Proof.
  intros [-> | (el & -> & Hlen)]; [reflexivity|].
  unfold rating_of.
  destruct (Nat.ltb_spec 1 (length (tag_class el))); [lia | reflexivity].
Qed.

Section ExtractorProperties.

Variable BeautifulSoup : str -> PageElement.

(** The records of a page are those of its product nodes, one per node, in
    document order. *)
Lemma parse_books_Return (html : str) (bs : list book) :
  parse_books BeautifulSoup html = Return bs <->
  Forall2 (fun art b => book_of art = Return b)
          (select article_product_pod (BeautifulSoup html)) bs.
Proof. unfold parse_books; apply mapM_Return. Qed.

Lemma parse_books_no_product (html : str) :
  select article_product_pod (BeautifulSoup html) = [] ->
  parse_books BeautifulSoup html = Return [].
Proof. unfold parse_books; now intros ->. Qed.

(** C4. When some product node of a page lacks the [title] attribute of its
    heading anchor (or the heading, or the anchor), its price element or
    its stock-status element, [parse_books] raises instead of returning the
    records of the page; the exception is one of those a missing element
    gives ([AttributeError], [TypeError], [KeyError]), the parse errors of
    the specification. *)
Theorem parse_books_missing_field (html : str) (art : PageElement)
    (Hart : In art (select article_product_pod (BeautifulSoup html)))
    (Hmiss : title_attr art = None \/
             select_one p_price_color art = None \/
             select_one p_instock_availability art = None) :
  exists e, parse_books BeautifulSoup html = Raise e /\ is_parse_failure e.
Proof.
  destruct (book_of_missing art Hmiss) as [e He].
  destruct (mapM_Raise_In book_of _ _ Hart He) as (art' & e' & _ & He' & Hm).
  exists e'; split; [exact Hm | eapply book_of_Raise; eassumption].
Qed.

(** C5. A product node whose rating element is absent, or has fewer than
    two class tokens, gets [rating = None]: every record extracted from it
    has a null rating, the other three fields are read as usual, and on a
    page whose nodes all have their required fields no error is raised. *)
Theorem rating_degrades_to_null (art : PageElement)
    (Hdeg : select_one p_star_rating art = None \/
            exists el, select_one p_star_rating art = Some el /\
                       length (tag_class el) < 2) :
  (forall b, book_of art = Return b -> rating b = None) /\
  (forall t pe ae,
      title_attr art = Some t ->
      select_one p_price_color art = Some pe ->
      select_one p_instock_availability art = Some ae ->
      book_of art = Return {| title := t;
                              price_raw := stripped_text pe;
                              availability := stripped_text ae;
                              rating := None |}) /\
  (forall html,
      In art (select article_product_pod (BeautifulSoup html)) ->
      (forall art', In art' (select article_product_pod (BeautifulSoup html)) ->
                    required_fields_present art') ->
      exists bs b, parse_books BeautifulSoup html = Return bs /\
                   In b bs /\ book_of art = Return b /\ rating b = None).
Proof.
  pose proof (rating_of_short Hdeg) as Hr.
  assert (H1 : forall b, book_of art = Return b -> rating b = None).
  { intros b Hb; apply book_of_Return in Hb as (_ & _ & _ & ->); exact Hr. }
  refine (conj H1 (conj _ _)).
  - intros t pe ae Ht Hp Ha.
    rewrite (book_of_present _ Ht Hp Ha), Hr; reflexivity.
  - intros html Hart Hall.
    destruct (mapM_all_Return book_of
                (select article_product_pod (BeautifulSoup html)))
      as [bs Hbs].
    { intros art' Hin; apply book_of_required; now apply Hall. }
    pose proof Hbs as HF; apply mapM_Return in HF.
    destruct (@Forall2_In_l _ _ _ _ _ art HF Hart) as (b & Hb & Hab).
    exists bs, b; auto.
Qed.

End ExtractorProperties.

(** ** Page numbers *)

Unset Implicit Arguments.

Lemma range_nil (a : Z) : range a a = [].
Proof. unfold range; now rewrite Z.sub_diag. Qed.

Lemma range_cons (a b : Z) : (a < b)%Z -> range a b = a :: range (a + 1) b.
Proof.
  intros Hab; unfold range.
  replace (Z.to_nat (b - a)) with (S (Z.to_nat (b - (a + 1)))) by lia.
  cbn [seq map]; f_equal; [lia|].
  rewrite <- seq_shift, map_map.
  apply map_ext; intros i; lia.
Qed.

Lemma range_snoc (a b : Z) : (a <= b)%Z -> range a (b + 1) = range a b ++ [b].
Proof.
  intros Hab; unfold range.
  replace (Z.to_nat (b + 1 - a)) with (Z.to_nat (b - a) + 1) by lia.
  rewrite seq_app, map_app; cbn [seq map]; do 2 f_equal; lia.
Qed.

Lemma range_app (a k b : Z) :
  (a <= k <= b)%Z -> range a b = range a k ++ range k b.
Proof.
  intros Hk.
  replace b with (k + Z.of_nat (Z.to_nat (b - k)))%Z by lia.
  induction (Z.to_nat (b - k)) as [|n IH].
  - now rewrite Z.add_0_r, range_nil, app_nil_r.
  - replace (k + Z.of_nat (S n))%Z with (k + Z.of_nat n + 1)%Z by lia.
    rewrite !range_snoc by lia.
    now rewrite IH, app_assoc.
Qed.

Lemma range_split (a k b : Z) :
  (a <= k < b)%Z -> range a b = range a k ++ k :: range (k + 1) b.
Proof.
  intros Hk.
  rewrite (range_app a k b) by lia.
  now rewrite (range_cons k b) by lia.
Qed.

Lemma range_length (a b : Z) : length (range a b) = Z.to_nat (b - a).
Proof. unfold range; now rewrite length_map, length_seq. Qed.

Lemma range_In (a b k : Z) : In k (range a b) <-> (a <= k < b)%Z.
Proof.
  unfold range; rewrite in_map_iff; split.
  - intros (i & <- & Hi); apply in_seq in Hi; lia.
  - intros Hk; exists (Z.to_nat (k - a)); split; [lia|].
    apply in_seq; lia.
Qed.

(** The pages of a run are 1, 2, ..., N. *)
Lemma pages_of_seq (N : Z) : pages_of N = map Z.of_nat (seq 1 (Z.to_nat N)).
Proof.
  unfold pages_of, range.
  replace (Z.to_nat (N + 1 - 1)) with (Z.to_nat N) by lia.
  rewrite <- seq_shift, map_map; apply map_ext; intros i; lia.
Qed.

Lemma hist_before_succ (hist : list str) (page : Z) :
  (1 <= page)%Z ->
  hist_before hist (page + 1) = hist_before hist page ++ [page_url page].
Proof.
  intros Hp; unfold hist_before.
  now rewrite range_snoc, map_app, app_assoc by assumption.
Qed.

Lemma hist_before_1 (hist : list str) : hist_before hist 1 = hist.
Proof. unfold hist_before; rewrite range_nil; apply app_nil_r. Qed.

(** ** The loop over the pages *)

Section DriverProperties.

Variable BeautifulSoup : str -> PageElement.
Variable site : list str -> str -> RequestException + Response.

(** One call of [get_page]: its value is [fetched_html], one line is
    printed and one request is recorded, whatever the outcome. *)
Lemma get_page_run (page : Z) (w : world) :
  get_page site (page_url page) w =
  (fetched_html site (requests w) page,
   {| stdout := stdout w ++ [u "Fetching: " ++ page_url page];
      requests := requests w ++ [page_url page] |}).
Proof.
  unfold get_page, fetched_html, bind, print, requests_get, raise_for_status.
  cbn [stdout requests].
  destruct (site (requests w) (page_url page)) as [e | resp]; [reflexivity|].
  destruct ((400 <=? status_code resp)%Z && (status_code resp <? 600)%Z);
    reflexivity.
Qed.

(** One turn of the loop. *)
Lemma for_pages_cons (page : Z) (pages : list Z) (all_books : list book)
      (w : world) :
  for_pages BeautifulSoup site (page :: pages) all_books w =
  let w1 := {| stdout := stdout w ++ [u "Fetching: " ++ page_url page];
               requests := requests w ++ [page_url page] |} in
  match page_books BeautifulSoup site (requests w) page with
  | Raise e => (Raise e, w1)
  | Return page_books =>
      for_pages BeautifulSoup site pages (all_books ++ page_books)
        {| stdout := stdout w1 ++
                     [u "  -> found "
                        ++ str_of_int (Z.of_nat (length page_books))
                        ++ u " books on page " ++ str_of_int page];
           requests := requests w1 |}
  end.
Proof.
  cbn [for_pages]; unfold bind at 1; rewrite get_page_run.
  unfold page_books.
  destruct (fetched_html site (requests w) page) as [html|e];
    cbn [rbind]; [|reflexivity].
  unfold bind, lift, print.
  destruct (parse_books BeautifulSoup html) as [pb|e]; reflexivity.
Qed.

Lemma for_pages_app (a b : list Z) (all_books : list book) (w : world) :
  for_pages BeautifulSoup site (a ++ b) all_books w =
  match for_pages BeautifulSoup site a all_books w with
  | (Return all_books', w') => for_pages BeautifulSoup site b all_books' w'
  | (Raise e, w') => (Raise e, w')
  end.
Proof.
  revert all_books w; induction a as [|p a IH]; intros all_books w.
  - reflexivity.
  - rewrite <- app_comm_cons, !for_pages_cons; cbv zeta.
    destruct (page_books BeautifulSoup site (requests w) p); [apply IH | reflexivity].
Qed.

(** The value of the loop: the records of the pages, page after page,
    appended to [all_books]; the first page that fails ends it. *)
Lemma for_pages_value (pages : list Z) (all_books : list book) (w : world) :
  fst (for_pages BeautifulSoup site pages all_books w) =
  (per <- per_page BeautifulSoup site (requests w) pages ;;
   Return (all_books ++ List.concat per))%result.
Proof.
  revert all_books w; induction pages as [|p pages IH]; intros all_books w.
  - cbn; now rewrite app_nil_r.
  - rewrite for_pages_cons; cbv zeta; cbn [per_page].
    destruct (page_books BeautifulSoup site (requests w) p) as [bs|e];
      cbn [rbind]; [|reflexivity].
    rewrite IH; cbn [requests].
    destruct (per_page BeautifulSoup site (requests w ++ [page_url p]) pages)
      as [per|e]; cbn [rbind]; [|reflexivity].
    cbn [List.concat]; now rewrite app_assoc.
Qed.

(** A loop that completes has requested every page, in order. *)
Lemma for_pages_requests (pages : list Z) (all_books all_books' : list book)
      (w w' : world) :
  for_pages BeautifulSoup site pages all_books w = (Return all_books', w') ->
  requests w' = requests w ++ map page_url pages.
Proof.
  revert all_books w; induction pages as [|p pages IH]; intros all_books w.
  - cbn; unfold ret; intros [= _ <-]; now rewrite app_nil_r.
  - rewrite for_pages_cons; cbv zeta.
    destruct (page_books BeautifulSoup site (requests w) p) as [bs|e];
      [|discriminate].
    intros H; apply IH in H; rewrite H; cbn [requests map].
    now rewrite <- app_assoc.
Qed.

(** Each list of [per_page] is what [page_books] returned for that page
    after the requests of the pages before it. *)
Lemma per_page_pages (hist : list str) (n : nat) (a : Z)
      (per : list (list book)) :
  (1 <= a)%Z ->
  per_page BeautifulSoup site (hist_before hist a)
           (range a (a + Z.of_nat n)) = Return per <->
  Forall2 (fun page bs =>
             page_books BeautifulSoup site (hist_before hist page) page
             = Return bs)
          (range a (a + Z.of_nat n)) per.
Proof.
  revert a per; induction n as [|n IH]; intros a per Ha.
  - rewrite Z.add_0_r, range_nil; cbn; split.
    + intros [= <-]; constructor.
    + intros H; inversion H; reflexivity.
  - rewrite range_cons by lia; cbn [per_page].
    rewrite <- hist_before_succ by assumption.
    replace (a + Z.of_nat (S n))%Z with (a + 1 + Z.of_nat n)%Z by lia.
    split.
    + destruct (page_books BeautifulSoup site (hist_before hist a) a)
        as [bs|e] eqn:Hbs; cbn [rbind]; [|discriminate].
      destruct (per_page _ _ _ _) as [rest|e] eqn:Hrest; cbn [rbind];
        [|discriminate].
      intros [= <-]; constructor; [assumption|].
      apply IH; [lia | assumption].
    + intros H; inversion H as [|p bs ps rest Hbs Hrest]; subst.
      rewrite Hbs; cbn [rbind].
      apply IH in Hrest; [|lia]. rewrite Hrest; reflexivity.
Qed.

Lemma per_page_of_run (hist : list str) (N : Z) (per : list (list book)) :
  per_page BeautifulSoup site hist (pages_of N) = Return per <->
  Forall2 (fun page bs =>
             page_books BeautifulSoup site (hist_before hist page) page
             = Return bs)
          (pages_of N) per.
Proof.
  unfold pages_of.
  destruct (Z.le_gt_cases 1 N) as [HN | HN].
  - replace (N + 1)%Z with (1 + Z.of_nat (Z.to_nat N))%Z by lia.
    rewrite <- (hist_before_1 hist) at 1.
    apply per_page_pages; lia.
  - unfold range; replace (Z.to_nat (N + 1 - 1)) with 0 by lia.
    cbn; split.
    + intros [= <-]; constructor.
    + intros H; inversion H; reflexivity.
Qed.

Lemma page_books_Return (hist : list str) (page : Z) (bs : list book) :
  page_books BeautifulSoup site hist page = Return bs <->
  exists html, fetched_html site hist page = Return html /\
               parse_books BeautifulSoup html = Return bs.
Proof.
  unfold page_books; split.
  - destruct (fetched_html site hist page) as [html|e]; cbn [rbind];
      [eauto | discriminate].
  - intros (html & -> & H); exact H.
Qed.

(** A fetch can only fail with an exception of [requests]. *)
Lemma fetched_html_Raise (hist : list str) (page : Z) (e : exception) :
  fetched_html site hist page = Raise e -> exists r, e = Requests r.
Proof.
  unfold fetched_html; destruct (site hist (page_url page)) as [r|resp].
  - intros [= <-]; eauto.
  - destruct (_ && _); [intros [= <-]; eauto | discriminate].
Qed.

(** The two halves of [scrape_books]. *)
Lemma scrape_books_run (N : Z) (w : world) :
  scrape_books BeautifulSoup site N w =
  match for_pages BeautifulSoup site (pages_of N) [] w with
  | (Return all_books, w') => (clean_prices (pd_DataFrame all_books), w')
  | (Raise e, w') => (Raise e, w')
  end.
Proof. reflexivity. Qed.

Lemma scrape_books_Return (N : Z) (w w' : world)
      (df : DataFrame NormalizedBookRecord) :
  scrape_books BeautifulSoup site N w = (Return df, w') ->
  exists per,
    per_page BeautifulSoup site (requests w) (pages_of N) = Return per /\
    clean_prices (pd_DataFrame (List.concat per)) = Return df /\
    requests w' = requests w ++ map page_url (pages_of N).
Proof.
  rewrite scrape_books_run.
  destruct (for_pages BeautifulSoup site (pages_of N) [] w) as [[all|e] w1]
    eqn:Hloop; [|discriminate].
  intros [= Hclean <-].
  pose proof (for_pages_value (pages_of N) [] w) as Hv.
  rewrite Hloop in Hv; cbn [fst] in Hv.
  destruct (per_page BeautifulSoup site (requests w) (pages_of N))
    as [per|e]; cbn [rbind] in Hv; [|discriminate].
  injection Hv as ->; cbn [app] in Hclean.
  exists per; split; [reflexivity|]; split; [assumption|].
  eapply for_pages_requests; eassumption.
Qed.

(** C2. Whenever the price cleaning of a frame succeeds, the rows are the
    records in order and the [price_clean] of each row is the float parsed
    from what is left of its [price_raw] after removing every character that
    is neither a decimal digit nor ['.'], and it is not negative; the same
    holds for every row of a table [scrape_books] returns.  In particular a
    record whose [price_raw] is the pound sign, or any stray non-numeric
    character, followed by ["51.77"] is given exactly the float 51.77, the
    binary64 number nearest to 5177/100, and so is a record whose
    [price_raw] is ["51.77"] already. *)
Theorem price_normalizer_value (records : list book)
    (df : DataFrame NormalizedBookRecord)
    (Hok : clean_prices (pd_DataFrame records) = Return df) :
  map raw (rows df) = records /\
  Forall price_is_cleaned (rows df) /\
  (forall N w w' table,
      scrape_books BeautifulSoup site N w = (Return table, w') ->
      Forall price_is_cleaned (rows table)) /\
  (forall b, price_raw b = 163%N :: u "51.77" ->
             clean_prices (pd_DataFrame [b])
             = Return (one_row_table b float_51_77)) /\
  (forall b c, is_digit c || is_dot c = false ->
               price_raw b = c :: u "51.77" ->
               clean_prices (pd_DataFrame [b])
               = Return (one_row_table b float_51_77)) /\
  (forall b, price_raw b = u "51.77" ->
             clean_prices (pd_DataFrame [b])
             = Return (one_row_table b float_51_77)) /\
  (Qmake 5177 100 - Qmake 1 (2 ^ 48)
   <= Qmake 7285979772155331 140737488355328)%Q /\
  (Qmake 7285979772155331 140737488355328
   <= Qmake 5177 100 + Qmake 1 (2 ^ 48))%Q.
Proof.
  assert (Hrows : forall rs t,
             clean_prices (pd_DataFrame rs) = Return t ->
             map raw (rows t) = rs /\ Forall price_is_cleaned (rows t)).
  { intros rs t Ht; apply clean_prices_Return in Ht as [H1 H2].
    split; [exact H1|].
    eapply Forall_impl; [|exact H2].
    intros r Hr; exact (@price_normalizer_value_aux _ _ Hr). }
  assert (Hone : forall b c, is_digit c || is_dot c = false ->
                   price_raw b = c :: u "51.77" ->
                   clean_prices (pd_DataFrame [b])
                   = Return (one_row_table b float_51_77)).
  { intros b c Hc Hb.
    rewrite clean_prices_nonempty by discriminate.
    cbn [map]; rewrite Hb; unfold str_replace; cbn [map re_sub].
    rewrite class_not_digit_or_dot, Hc; cbn [negb app].
    replace (astype_float [re_sub not_digit_or_dot [] (u "51.77")])
      with (Return [float_51_77]) by (vm_compute; reflexivity).
    reflexivity. }
  destruct (Hrows records df Hok) as [H1 H2].
  refine (conj H1 (conj H2 (conj _ (conj _ (conj Hone (conj _ (conj _ _))))))).
  - intros N w w' table Hrun.
    apply scrape_books_Return in Hrun as (per & _ & Hclean & _).
    exact (proj2 (Hrows _ _ Hclean)).
  - intros b Hb; exact (Hone b 163%N eq_refl Hb).
  - intros b Hb.
    rewrite clean_prices_nonempty by discriminate.
    cbn [map]; rewrite Hb; unfold str_replace; cbn [map].
    replace (astype_float [re_sub not_digit_or_dot [] (u "51.77")])
      with (Return [float_51_77]) by (vm_compute; reflexivity).
    reflexivity.
  - vm_compute; intros D; discriminate D.
  - vm_compute; intros D; discriminate D.
Qed.

(** C1. For a page count N >= 1, a run of [scrape_books] whose loop
    completes has issued exactly N requests, for the pages 1, 2, ..., N in
    this order; page 1 is the root listing URL and every page k >= 2 is
    ['catalogue/page-{k}.html'] under the base URL; the loop hands the
    records of the N pages to the price cleaning, and the table it returns
    has as many rows as the pages had records, summed over the pages. *)
Theorem pagination_driver (N : Z) (w w' : world) (all_books : list book)
    (HN : (1 <= N)%Z)
    (Hloop : for_pages BeautifulSoup site (range 1 (N + 1)) [] w
             = (Return all_books, w')) :
  requests w' =
    requests w ++ map (fun k => page_url (Z.of_nat k)) (seq 1 (Z.to_nat N)) /\
  length (requests w') = length (requests w) + Z.to_nat N /\
  page_url 1 = BASE_URL /\
  (forall k, (2 <= k)%Z ->
     page_url k = BASE_URL ++ u "catalogue/page-" ++ str_of_int k ++ u ".html") /\
  scrape_books BeautifulSoup site N w
  = (clean_prices (pd_DataFrame all_books), w') /\
  exists per,
    per_page BeautifulSoup site (requests w) (pages_of N) = Return per /\
    length per = Z.to_nat N /\
    all_books = List.concat per /\
    forall df, clean_prices (pd_DataFrame all_books) = Return df ->
               length (rows df) = list_sum (map (@length book) per).
Proof.
  fold (pages_of N) in Hloop.
  assert (Hurls : requests w' = requests w ++
            map (fun k => page_url (Z.of_nat k)) (seq 1 (Z.to_nat N))).
  { rewrite (for_pages_requests _ _ _ _ _ Hloop).
    now rewrite pages_of_seq, map_map. }
  split; [exact Hurls|].
  split; [now rewrite Hurls, length_app, length_map, length_seq|].
  split; [reflexivity|].
  split.
  { intros k Hk; unfold page_url.
    destruct (Z.eqb_spec k 1); [lia | reflexivity]. }
  split; [now rewrite scrape_books_run, Hloop|].
  pose proof (for_pages_value (pages_of N) [] w) as Hv.
  rewrite Hloop in Hv; cbn [fst] in Hv.
  destruct (per_page BeautifulSoup site (requests w) (pages_of N))
    as [per|e] eqn:Hper; cbn [rbind] in Hv; [|discriminate].
  injection Hv as ->; cbn [app].
  exists per; split; [reflexivity|]; split; [|split; [reflexivity|]].
  - apply per_page_of_run, Forall2_length in Hper.
    rewrite <- Hper; unfold pages_of; rewrite range_length; lia.
  - intros df Hclean.
    apply clean_prices_Return in Hclean as [Hrows _].
    rewrite <- length_concat, <- Hrows; now rewrite length_map.
Qed.

(** C6. The rows of a returned table are the extracted records in page
    order and, inside a page, in the document order of its product nodes:
    one row per node, nothing dropped, merged or reordered. *)
Theorem table_keeps_scrape_order (N : Z) (w w' : world)
    (df : DataFrame NormalizedBookRecord)
    (Hrun : scrape_books BeautifulSoup site N w = (Return df, w')) :
  exists per,
    map raw (rows df) = List.concat per /\
    Forall2
      (fun page bs =>
         exists html,
           fetched_html site (hist_before (requests w) page) page
           = Return html /\
           Forall2 (fun art b => book_of art = Return b)
                   (select article_product_pod (BeautifulSoup html)) bs)
      (pages_of N) per.
Proof.
  apply scrape_books_Return in Hrun as (per & Hper & Hclean & _).
  exists per; split.
  - now apply clean_prices_Return in Hclean as [Hrows _].
  - apply per_page_of_run in Hper.
    eapply Forall2_impl; [|exact Hper].
    intros page bs Hbs; apply page_books_Return in Hbs as (html & Hf & Hp).
    exists html; split; [assumption | now apply parse_books_Return].
Qed.

(** C7, as the code has it.  Every record of a returned table has a
    [price_clean] that is the non-negative number parsed from the
    digit-and-dot remainder of its [price_raw], and it is the record of a
    product node of one of the fetched pages: its title is the [title]
    attribute found there and its rating is null or the second class token
    of the rating element.  Nothing checks that the title or the stock text
    is non-empty, nor that the rating is a rating ordinal. *)
Theorem table_records (N : Z) (w w' : world)
    (df : DataFrame NormalizedBookRecord)
    (Hrun : scrape_books BeautifulSoup site N w = (Return df, w')) :
  Forall
    (fun r =>
       py_float (keep_digits_and_dots (price_raw (raw r)))
       = Return (price_clean r) /\
       float_leb (Finite 0) (price_clean r) = true /\
       exists page html art,
         (1 <= page <= N)%Z /\
         fetched_html site (hist_before (requests w) page) page
         = Return html /\
         In art (select article_product_pod (BeautifulSoup html)) /\
         book_of art = Return (raw r) /\
         title_attr art = Some (title (raw r)) /\
         rating (raw r) = rating_of (select_one p_star_rating art))
    (rows df).
Proof.
  apply scrape_books_Return in Hrun as (per & Hper & Hclean & _).
  apply clean_prices_Return in Hclean as [Hrows Hprices].
  apply per_page_of_run in Hper.
  rewrite Forall_forall in Hprices |- *; intros r Hr.
  specialize (Hprices r Hr).
  destruct (@price_normalizer_value_aux _ _ Hprices) as [Hval Hpos].
  split; [exact Hval|]; split; [exact Hpos|].
  assert (Hin : In (raw r) (List.concat per)).
  { rewrite <- Hrows; now apply in_map. }
  apply in_concat in Hin as (bs & Hbs & Hrbs).
  destruct (@Forall2_In_r _ _ _ _ _ bs Hper Hbs) as (page & Hpage & Hpb).
  apply page_books_Return in Hpb as (html & Hf & Hp).
  apply parse_books_Return in Hp.
  destruct (@Forall2_In_r _ _ _ _ _ (raw r) Hp Hrbs) as (art & Hart & Hbook).
  exists page, html, art.
  apply range_In in Hpage.
  pose proof (@book_of_Return _ _ Hbook) as (Ht & _ & _ & Hrat).
  repeat (split; [first [assumption | lia]|]); assumption.
Qed.

(** C8. When the loop has dealt with the pages 1..k-1 and the fetch of page
    k fails, [scrape_books] raises that very exception, an exception of
    [requests]; no table is returned, so the records gathered from the pages
    1..k-1 are lost, and the run stops there: no further page is
    requested. *)
Theorem fetch_failure_aborts (N k : Z) (w w1 w2 : world) (e : exception)
    (gathered : list book)
    (Hk : (1 <= k <= N)%Z)
    (Hbefore : for_pages BeautifulSoup site (range 1 k) [] w
               = (Return gathered, w1))
    (Hfetch : get_page site (page_url k) w1 = (Raise e, w2)) :
  scrape_books BeautifulSoup site N w = (Raise e, w2) /\
  (exists r, e = Requests r) /\
  (forall df, fst (scrape_books BeautifulSoup site N w) <> Return df) /\
  requests w2 = requests w ++ map page_url (range 1 (k + 1)).
Proof.
  assert (Hrun : scrape_books BeautifulSoup site N w = (Raise e, w2)).
  { rewrite scrape_books_run; unfold pages_of.
    rewrite (range_split 1 k (N + 1)) by lia.
    rewrite for_pages_app, Hbefore.
    cbn [for_pages]; unfold bind at 1; now rewrite Hfetch. }
  rewrite get_page_run in Hfetch; injection Hfetch as Hfetch <-.
  split; [exact Hrun|].
  split; [eapply fetched_html_Raise; eassumption|].
  split; [intros df; rewrite Hrun; discriminate|].
  cbn [requests]; rewrite (for_pages_requests _ _ _ _ _ Hbefore).
  now rewrite range_snoc, map_app, app_assoc by lia.
Qed.

Lemma concat_all_nil {A} (l : list (list A)) :
  Forall (fun x => x = []) l -> List.concat l = [].
Proof. induction 1 as [|x l -> _ IH]; [reflexivity | exact IH]. Qed.

(** C9. When every fetched page has no product node, [parse_books] returns
    the empty list for each of them without error, the accumulated list is
    empty, the frame has no ['price_raw'] column and [scrape_books] raises
    [KeyError('price_raw')] in the price cleaning instead of returning an
    empty table. *)
Theorem empty_listing_raises (N : Z) (w : world)
    (HN : (1 <= N)%Z)
    (Hempty : forall k, (1 <= k <= N)%Z ->
       exists html,
         fetched_html site (hist_before (requests w) k) k = Return html /\
         select article_product_pod (BeautifulSoup html) = []) :
  fst (scrape_books BeautifulSoup site N w) = Raise (KeyError (u "price_raw")) /\
  (forall k, (1 <= k <= N)%Z ->
     page_books BeautifulSoup site (hist_before (requests w) k) k = Return []) /\
  (forall html, select article_product_pod (BeautifulSoup html) = [] ->
                parse_books BeautifulSoup html = Return []).
Proof.
  assert (Hpages : forall k, (1 <= k <= N)%Z ->
            page_books BeautifulSoup site (hist_before (requests w) k) k
            = Return []).
  { intros k Hk; destruct (Hempty k Hk) as (html & Hf & Hsel).
    apply page_books_Return; exists html; split; [assumption|].
    now apply parse_books_no_product. }
  split; [|split; [exact Hpages | apply parse_books_no_product]].
  assert (Hper : per_page BeautifulSoup site (requests w) (pages_of N)
                 = Return (map (fun _ => []) (pages_of N))).
  { apply per_page_of_run.
    assert (Hall : forall k, In k (pages_of N) -> (1 <= k <= N)%Z).
    { intros k Hin; apply range_In in Hin; lia. }
    induction (pages_of N) as [|p ps IH]; cbn [map]; constructor.
    - apply Hpages, Hall; now left.
    - apply IH; intros k Hin; apply Hall; now right. }
  rewrite scrape_books_run.
  pose proof (for_pages_value (pages_of N) [] w) as Hv.
  rewrite Hper in Hv; cbn [rbind app] in Hv.
  rewrite concat_all_nil in Hv
    by (apply Forall_forall; intros x Hx; apply in_map_iff in Hx;
        now destruct Hx as (_ & <- & _)).
  destruct (for_pages BeautifulSoup site (pages_of N) [] w) as [r w1].
  cbn [fst] in Hv; subst r; reflexivity.
Qed.

End DriverProperties.

(** C10. When the rating element of a product node of a page has at least
    two class tokens, the record [parse_books] returns for that node has the
    second token as its rating, as it stands: nothing compares it with the
    rating ordinals.  So for some markup [parse_books] returns a record
    whose rating is a string outside [One .. Five], neither null nor an
    error. *)
Theorem rating_is_second_class_token (BeautifulSoup : str -> PageElement)
    (html : str) (art el : PageElement) (c0 c1 : str) (rest : list str)
    (Hart : In art (select article_product_pod (BeautifulSoup html)))
    (Hsel : select_one p_star_rating art = Some el)
    (Hcls : tag_class el = c0 :: c1 :: rest) :
  (forall bs, parse_books BeautifulSoup html = Return bs ->
              exists b, In b bs /\ book_of art = Return b /\
                        rating b = Some c1) /\
  ((forall art', In art' (select article_product_pod (BeautifulSoup html)) ->
                 required_fields_present art') ->
   exists bs b, parse_books BeautifulSoup html = Return bs /\
                In b bs /\ book_of art = Return b /\ rating b = Some c1) /\
  (exists parser html' bs' b' r,
      parse_books parser html' = Return bs' /\ In b' bs' /\
      rating b' = Some r /\ ~ In r rating_ordinals).
Proof.
  assert (Hr : rating_of (select_one p_star_rating art) = Some c1).
  { rewrite Hsel; unfold rating_of; rewrite Hcls; reflexivity. }
  assert (H1 : forall bs, parse_books BeautifulSoup html = Return bs ->
                 exists b, In b bs /\ book_of art = Return b /\
                           rating b = Some c1).
  { intros bs Hbs; apply parse_books_Return in Hbs.
    destruct (@Forall2_In_l _ _ _ _ _ art Hbs Hart) as (b & Hb & Hab).
    exists b; split; [exact Hb|]; split; [exact Hab|].
    apply book_of_Return in Hab as (_ & _ & _ & ->); exact Hr. }
  split; [exact H1|]; split.
  - intros Hall.
    destruct (mapM_all_Return book_of
                (select article_product_pod (BeautifulSoup html)))
      as [bs Hbs].
    { intros art' Hin; apply book_of_required; now apply Hall. }
    destruct (H1 bs Hbs) as (b & Hb); exists bs, b; split; [exact Hbs|].
    exact Hb.
  - exists Fixtures.parser, (u "page-odd"); eexists; eexists.
    exists (u "star-rating").
    split; [vm_compute; reflexivity|].
    split; [left; reflexivity|]; split; [reflexivity|].
    vm_compute; intros [H|[H|[H|[H|[H|[]]]]]]; discriminate H.
Qed.

(** ** Runs on the fixtures *)

Lemma price_normalizer_value_witness :
  clean_prices (pd_DataFrame Fixtures.first_page_books)
  = Return MoreFixtures.table_first_page /\
  map raw (rows MoreFixtures.table_first_page) = Fixtures.first_page_books /\
  Forall price_is_cleaned (rows MoreFixtures.table_first_page).
Proof.
  assert (H : clean_prices (pd_DataFrame Fixtures.first_page_books)
              = Return MoreFixtures.table_first_page)
    by (vm_compute; reflexivity).
  split; [exact H|].
  destruct (price_normalizer_value Fixtures.parser Fixtures.site_good
              Fixtures.first_page_books MoreFixtures.table_first_page H)
    as (H1 & H2 & _).
  split; [exact H1 | exact H2].
Defined.

Lemma pagination_driver_witness :
  (1 <= 3)%Z /\
  for_pages Fixtures.parser Fixtures.site_good (range 1 (3 + 1)) [] Fixtures.w0
  = (Return (map raw (rows Fixtures.table_good)), Fixtures.world_good) /\
  requests Fixtures.world_good =
    requests Fixtures.w0 ++ map (fun k => page_url (Z.of_nat k)) (seq 1 3) /\
  length (requests Fixtures.world_good) = 3.
Proof.
  assert (H : for_pages Fixtures.parser Fixtures.site_good (range 1 (3 + 1))
                [] Fixtures.w0
              = (Return (map raw (rows Fixtures.table_good)),
                 Fixtures.world_good))
    by (vm_compute; reflexivity).
  assert (H3 : (1 <= 3)%Z) by (intros D; discriminate D).
  split; [exact H3|]; split; [exact H|].
  destruct (pagination_driver Fixtures.parser Fixtures.site_good 3
              Fixtures.w0 Fixtures.world_good _ H3 H)
    as (H1 & H2 & _).
  split; [exact H1 | exact H2].
Defined.

Lemma parse_books_missing_field_witness :
  In Fixtures.pod_no_price
     (select article_product_pod (Fixtures.parser (u "page-torn"))) /\
  select_one p_price_color Fixtures.pod_no_price = None /\
  exists e, parse_books Fixtures.parser (u "page-torn") = Raise e /\
            is_parse_failure e.
Proof.
  assert (Hin : In Fixtures.pod_no_price
                   (select article_product_pod (Fixtures.parser (u "page-torn"))))
    by (right; left; reflexivity).
  assert (Hnone : select_one p_price_color Fixtures.pod_no_price = None)
    by reflexivity.
  split; [exact Hin|]; split; [exact Hnone|].
  exact (parse_books_missing_field Fixtures.parser (u "page-torn")
           Fixtures.pod_no_price Hin (or_intror (or_introl Hnone))).
Defined.

Lemma rating_degrades_to_null_witness :
  (exists el, select_one p_star_rating Fixtures.pod_unrated = Some el /\
              length (tag_class el) < 2) /\
  book_of Fixtures.pod_unrated
  = Return {| title := u "Sharp Objects";
              price_raw := 163%N :: u "47.82";
              availability := u "In stock";
              rating := None |}.
Proof.
  assert (Hdeg : exists el,
             select_one p_star_rating Fixtures.pod_unrated = Some el /\
             length (tag_class el) < 2).
  { exists Fixtures.rating_tag_unrated; split; [reflexivity | repeat constructor]. }
  split; [exact Hdeg|].
  destruct (rating_degrades_to_null Fixtures.parser Fixtures.pod_unrated
              (or_intror Hdeg)) as (_ & H & _).
  refine (H (u "Sharp Objects")
            (Tag (u "p") [] [u "price_color"]
                 [NavigableString (163%N :: u "47.82")])
            (Tag (u "p") [] [u "instock"; u "availability"]
                 [Tag (u "i") [] [u "icon-ok"] [];
                  NavigableString (10%N :: u "    " ++ u "In stock" ++ u "  " ++ [10%N])])
            eq_refl eq_refl eq_refl).
Defined.

Lemma table_keeps_scrape_order_witness :
  scrape_books Fixtures.parser Fixtures.site_good 3 Fixtures.w0
  = (Return Fixtures.table_good, Fixtures.world_good) /\
  exists per,
    map raw (rows Fixtures.table_good) = List.concat per /\
    length per = 3.
Proof.
  assert (H : scrape_books Fixtures.parser Fixtures.site_good 3 Fixtures.w0
              = (Return Fixtures.table_good, Fixtures.world_good))
    by (vm_compute; reflexivity).
  split; [exact H|].
  destruct (table_keeps_scrape_order Fixtures.parser Fixtures.site_good 3
              Fixtures.w0 Fixtures.world_good Fixtures.table_good H)
    as (per & Hrows & Hpages).
  exists per; split; [exact Hrows|].
  apply Forall2_length in Hpages; rewrite <- Hpages; reflexivity.
Defined.

(** The first title of page 1 is on page 2 as well: both rows are kept. *)
Example duplicate_titles_are_kept :
  length (filter (fun r => str_eqb (title (raw r)) (u "A Light in the Attic"))
                 (rows Fixtures.table_good)) = 2.
Proof. vm_compute; reflexivity. Qed.

Lemma table_records_witness :
  scrape_books Fixtures.parser Fixtures.site_good 3 Fixtures.w0
  = (Return Fixtures.table_good, Fixtures.world_good) /\
  Forall (fun r => py_float (keep_digits_and_dots (price_raw (raw r)))
                   = Return (price_clean r) /\
                   float_leb (Finite 0) (price_clean r) = true)
         (rows Fixtures.table_good).
Proof.
  assert (H : scrape_books Fixtures.parser Fixtures.site_good 3 Fixtures.w0
              = (Return Fixtures.table_good, Fixtures.world_good))
    by (vm_compute; reflexivity).
  split; [exact H|].
  eapply Forall_impl;
    [|exact (table_records Fixtures.parser Fixtures.site_good 3 Fixtures.w0
               Fixtures.world_good Fixtures.table_good H)].
  intros r (Hval & Hpos & _); split; [exact Hval | exact Hpos].
Defined.

(** C7 as the specification words it fails on the odd page: one row has an
    empty title and an empty stock text, another has a rating that is no
    rating ordinal. *)
Lemma blank_fields_reach_table :
  scrape_books Fixtures.parser Fixtures.site_odd 1 Fixtures.w0
  = (Return Fixtures.table_odd, Fixtures.world_odd) /\
  (exists r, In r (rows Fixtures.table_odd) /\
             title (raw r) = [] /\ availability (raw r) = []) /\
  (exists r, In r (rows Fixtures.table_odd) /\
             rating (raw r) = Some (u "star-rating") /\
             ~ In (u "star-rating") rating_ordinals) /\
  ~ Forall spec_record_invariant (rows Fixtures.table_odd).
Proof.
  split; [vm_compute; reflexivity|].
  split; [eexists; split; [right; left; reflexivity | split; reflexivity]|].
  split.
  - eexists; split; [left; reflexivity|]; split; [reflexivity|].
    vm_compute; intros [H|[H|[H|[H|[H|[]]]]]]; discriminate H.
  - intros HF; apply Forall_inv_tail, Forall_inv in HF.
    destruct HF as (_ & Ht & _); apply Ht; reflexivity.
Qed.

Lemma fetch_failure_aborts_witness :
  (1 <= 2 <= 3)%Z /\
  for_pages Fixtures.parser Fixtures.site_flaky (range 1 2) [] Fixtures.w0
  = (Return Fixtures.first_page_books, Fixtures.world_after_first) /\
  get_page Fixtures.site_flaky (page_url 2) Fixtures.world_after_first
  = (Raise (Requests Timeout), Fixtures.world_after_failure) /\
  scrape_books Fixtures.parser Fixtures.site_flaky 3 Fixtures.w0
  = (Raise (Requests Timeout), Fixtures.world_after_failure) /\
  requests Fixtures.world_after_failure = [page_url 1; page_url 2].
Proof.
  assert (Hk : (1 <= 2 <= 3)%Z)
    by (split; intros D; discriminate D).
  assert (Hbefore : for_pages Fixtures.parser Fixtures.site_flaky (range 1 2)
                      [] Fixtures.w0
                    = (Return Fixtures.first_page_books,
                       Fixtures.world_after_first))
    by (vm_compute; reflexivity).
  assert (Hfetch : get_page Fixtures.site_flaky (page_url 2)
                     Fixtures.world_after_first
                   = (Raise (Requests Timeout), Fixtures.world_after_failure))
    by (vm_compute; reflexivity).
  split; [exact Hk|]; split; [exact Hbefore|]; split; [exact Hfetch|].
  destruct (fetch_failure_aborts Fixtures.parser Fixtures.site_flaky 3 2
              Fixtures.w0 Fixtures.world_after_first
              Fixtures.world_after_failure (Requests Timeout)
              Fixtures.first_page_books Hk Hbefore Hfetch)
    as (Hrun & _ & _ & Hreq).
  split; [exact Hrun | exact Hreq].
Defined.

Lemma empty_listing_raises_witness :
  (1 <= 2)%Z /\
  (forall k, (1 <= k <= 2)%Z ->
     exists html,
       fetched_html Fixtures.site_empty
                    (hist_before (requests Fixtures.w0) k) k = Return html /\
       select article_product_pod (Fixtures.parser html) = []) /\
  fst (scrape_books Fixtures.parser Fixtures.site_empty 2 Fixtures.w0)
  = Raise (KeyError (u "price_raw")).
Proof.
  assert (H2 : (1 <= 2)%Z) by (intros D; discriminate D).
  assert (Hempty : forall k, (1 <= k <= 2)%Z ->
            exists html,
              fetched_html Fixtures.site_empty
                           (hist_before (requests Fixtures.w0) k) k
              = Return html /\
              select article_product_pod (Fixtures.parser html) = []).
  { intros k _; exists (u "nothing here"); split; reflexivity. }
  split; [exact H2|]; split; [exact Hempty|].
  exact (proj1 (empty_listing_raises Fixtures.parser Fixtures.site_empty 2
                  Fixtures.w0 H2 Hempty)).
Defined.

Lemma rating_is_second_class_token_witness :
  In Fixtures.pod_swapped
     (select article_product_pod (Fixtures.parser (u "page-odd"))) /\
  select_one p_star_rating Fixtures.pod_swapped
  = Some Fixtures.rating_tag_swapped /\
  tag_class Fixtures.rating_tag_swapped = [u "Three"; u "star-rating"] /\
  parse_books Fixtures.parser (u "page-odd")
  = Return MoreFixtures.odd_page_books /\
  exists b, In b MoreFixtures.odd_page_books /\
            book_of Fixtures.pod_swapped = Return b /\
            rating b = Some (u "star-rating").
Proof.
  assert (Hart : In Fixtures.pod_swapped
                    (select article_product_pod (Fixtures.parser (u "page-odd"))))
    by (left; reflexivity).
  assert (Hbs : parse_books Fixtures.parser (u "page-odd")
                = Return MoreFixtures.odd_page_books)
    by (vm_compute; reflexivity).
  split; [exact Hart|]; split; [reflexivity|]; split; [reflexivity|].
  split; [exact Hbs|].
  exact (proj1 (rating_is_second_class_token Fixtures.parser (u "page-odd")
                  Fixtures.pod_swapped Fixtures.rating_tag_swapped
                  (u "Three") (u "star-rating") [] Hart eq_refl eq_refl)
               MoreFixtures.odd_page_books Hbs).
Defined.

(** * Further properties of the code *)

(** ** [parse_books]: which exception, and from which node *)

Lemma mapM_app {A B} (f : A -> result B) (l1 l2 : list A) :
  mapM f (l1 ++ l2) =
  (ys1 <- mapM f l1 ;; ys2 <- mapM f l2 ;; Return (ys1 ++ ys2))%result.
Proof.
  induction l1 as [|x l1 IH]; cbn [app mapM rbind].
  - destruct (mapM f l2); reflexivity.
  - destruct (f x) as [y|e]; cbn [rbind]; [|reflexivity].
    rewrite IH; destruct (mapM f l1) as [ys1|e]; cbn [rbind]; [|reflexivity].
    destruct (mapM f l2); reflexivity.
Qed.

(** X3. The exception [parse_books] raises for a node tells which element
    is missing, and the title is looked at before the price and the price
    before the stock text: no heading gives [AttributeError('a')], a heading
    without anchor gives [TypeError], an anchor without [title] gives
    [KeyError('title')], and with a title present a missing price or stock
    element gives [AttributeError('get_text')]. *)
Theorem book_of_exception (art : PageElement) :
  (find (u "h3") art = None -> book_of art = Raise (AttributeError (u "a"))) /\
  (forall h3, find (u "h3") art = Some h3 -> find (u "a") h3 = None ->
              book_of art = Raise TypeError) /\
  (forall h3 a, find (u "h3") art = Some h3 -> find (u "a") h3 = Some a ->
                lookup (u "title") (tag_attrs a) = None ->
                book_of art = Raise (KeyError (u "title"))) /\
  (forall t, title_attr art = Some t ->
             select_one p_price_color art = None \/
             select_one p_instock_availability art = None ->
             book_of art = Raise (AttributeError (u "get_text"))).
Proof.
  unfold book_of, title_attr; cbn [rbind].
  refine (conj _ (conj _ (conj _ _))).
  - intros ->; reflexivity.
  - intros h3 -> ; cbn [getattr_tag rbind]; intros ->; reflexivity.
  - intros h3 a ->; cbn [getattr_tag rbind]; intros ->; cbn [getitem].
    intros ->; reflexivity.
  - intros t.
    destruct (find (u "h3") art) as [h3|]; [|discriminate].
    cbn [getattr_tag rbind].
    destruct (find (u "a") h3) as [a|]; [|discriminate].
    cbn [getitem]; intros ->; cbn [rbind].
    intros [-> | Ha]; [reflexivity|].
    destruct (select_one p_price_color art); cbn [get_text_strip rbind];
      [rewrite Ha|]; reflexivity.
Qed.

Section MoreExtractorProperties.

Variable BeautifulSoup : str -> PageElement.

(** X2. [parse_books] stops at the first product node, in document order,
    that cannot be read: when the nodes before it are fine, the exception
    of that node is the one raised, whatever comes after it. *)
Theorem parse_books_first_failure (html : str) (pre post : list PageElement)
    (art : PageElement) (e : exception)
    (Hsel : select article_product_pod (BeautifulSoup html)
            = pre ++ art :: post)
    (Hpre : forall a, In a pre -> exists b, book_of a = Return b)
    (Hart : book_of art = Raise e) :
  parse_books BeautifulSoup html = Raise e.
Proof.
  unfold parse_books; cbv zeta; rewrite Hsel, mapM_app.
  destruct (mapM_all_Return book_of pre Hpre) as [ys ->].
  cbn [rbind mapM]; now rewrite Hart.
Qed.

End MoreExtractorProperties.

Lemma parse_books_first_failure_witness :
  select article_product_pod (Fixtures.parser (u "page-torn"))
  = [Fixtures.pod_a] ++ Fixtures.pod_no_price :: [] /\
  parse_books Fixtures.parser (u "page-torn")
  = Raise (AttributeError (u "get_text")).
Proof.
  assert (Hsel : select article_product_pod (Fixtures.parser (u "page-torn"))
                 = [Fixtures.pod_a] ++ Fixtures.pod_no_price :: [])
    by reflexivity.
  split; [exact Hsel|].
  refine (parse_books_first_failure Fixtures.parser (u "page-torn")
            [Fixtures.pod_a] [] Fixtures.pod_no_price _ Hsel _ eq_refl).
  intros a [<- | []]; eexists; vm_compute; reflexivity.
Defined.

(** ** Text fields carry no surrounding blanks *)

Lemma lstrip_suffix (s : str) : exists p, s = p ++ lstrip s.
Proof.
  induction s as [|c s [p IH]]; [now exists []|]; cbn [lstrip].
  destruct (isspace c).
  - exists (c :: p); cbn; now f_equal.
  - now exists [].
Qed.

Lemma lstrip_hd (s : str) (c : char) (rest : str) :
  lstrip s = c :: rest -> isspace c = false.
Proof.
  induction s as [|d s IH]; cbn [lstrip]; [discriminate|].
  destruct (isspace d) eqn:Hd; [exact IH|].
  intros [= <- _]; exact Hd.
Qed.

Lemma strip_no_outer_space (s : str) : no_outer_space (strip s).
Proof.
  unfold no_outer_space, strip; split.
  - intros c rest H.
    apply (f_equal (@rev char)) in H; rewrite rev_involutive in H.
    cbn [rev] in H.
    destruct (lstrip_suffix (rev (lstrip s))) as [p Hp].
    rewrite H in Hp.
    apply (f_equal (@rev char)) in Hp.
    rewrite rev_involutive, !rev_app_distr in Hp; cbn in Hp.
    eapply lstrip_hd; exact Hp.
  - intros pre c H.
    apply (f_equal (@rev char)) in H.
    rewrite rev_involutive, rev_app_distr in H; cbn in H.
    eapply lstrip_hd; exact H.
Qed.

Lemma concat_nonempty_pieces (l : list str) :
  (forall x, In x l -> x <> []) -> l <> [] -> List.concat l <> [].
Proof.
  destruct l as [|x l]; [easy|]; intros Hne _ H; cbn in H.
  apply app_eq_nil in H as [Hx _]; exact (Hne x (or_introl eq_refl) Hx).
Qed.

Lemma concat_no_outer_space (l : list str) :
  (forall x, In x l -> x <> [] /\ no_outer_space x) ->
  no_outer_space (List.concat l).
Proof.
  intros Hl; split.
  - intros c rest H; destruct l as [|x l]; [discriminate|].
    destruct (Hl x (or_introl eq_refl)) as [Hx [Hhd _]].
    destruct x as [|d x]; [easy|].
    cbn in H; injection H as <- _; now apply (Hhd d x).
  - induction l as [|x l IH]; intros pre c H; [now destruct pre|].
    cbn [List.concat] in H.
    destruct l as [|y l].
    + cbn in H; rewrite app_nil_r in H.
      destruct (Hl x (or_introl eq_refl)) as [_ [_ Hlast]].
      now apply (Hlast pre c).
    + assert (Hne : List.concat (y :: l) <> []).
      { apply concat_nonempty_pieces; [|discriminate].
        intros z Hz; apply Hl; now right. }
      destruct (exists_last Hne) as (pre2 & c2 & Hc2).
      rewrite Hc2, app_assoc in H.
      apply app_inj_tail in H as [_ <-].
      apply (IH (fun z Hz => Hl z (or_intror Hz)) pre2 c2 Hc2).
Qed.

Lemma stripped_text_no_outer_space (el : PageElement) :
  no_outer_space (stripped_text el).
Proof.
  unfold stripped_text; apply concat_no_outer_space.
  intros x Hx; apply filter_In in Hx as [Hin Hne].
  apply in_map_iff in Hin as (y & <- & _).
  split; [|apply strip_no_outer_space].
  intros H; rewrite H in Hne; discriminate.
Qed.

(** X4. The [price_raw] and the [availability] of an extracted record
    neither start nor end with a blank: each is the concatenation of the
    non-empty stripped text nodes of its element. *)
Theorem text_fields_have_no_outer_space (art : PageElement) (b : book)
    (Hb : book_of art = Return b) :
  no_outer_space (price_raw b) /\ no_outer_space (availability b).
Proof.
  apply book_of_Return in Hb as (_ & (pe & _ & ->) & (ae & _ & ->) & _).
  split; apply stripped_text_no_outer_space.
Qed.

Lemma text_fields_have_no_outer_space_witness :
  book_of Fixtures.pod_a
  = Return {| title := u "A Light in the Attic";
              price_raw := 163%N :: u "51.77";
              availability := u "In stock";
              rating := Some (u "Three") |} /\
  no_outer_space (u "In stock").
Proof.
  assert (H : book_of Fixtures.pod_a
              = Return {| title := u "A Light in the Attic";
                          price_raw := 163%N :: u "51.77";
                          availability := u "In stock";
                          rating := Some (u "Three") |})
    by (vm_compute; reflexivity).
  split; [exact H|].
  exact (proj2 (text_fields_have_no_outer_space Fixtures.pod_a _ H)).
Defined.

(** ** More on the run of [scrape_books] *)

Lemma astype_float_first_failure (pre post : list str) (x : str) :
  (forall y, In y pre -> exists q, py_float y = Return q) ->
  (forall q, py_float x <> Return q) ->
  astype_float (pre ++ x :: post) = Raise (ValueError x).
Proof.
  intros Hpre Hx; unfold astype_float; rewrite mapM_app.
  destruct (mapM_all_Return py_float pre Hpre) as [ys ->].
  cbn [rbind mapM].
  destruct (py_float x) as [q|e] eqn:Hpx; [now destruct (Hx q)|].
  apply py_float_Raise in Hpx; now subst e.
Qed.

Section MoreDriverProperties.

Variable BeautifulSoup : str -> PageElement.
Variable site : list str -> str -> RequestException + Response.

(** X1. One call of [get_page] prints one line and makes one request,
    whatever the outcome.  It returns the body of the response, unchanged,
    only when the status is outside 400..599 (a 1xx, 2xx or 3xx body is
    returned as it is); a status in 400..599 raises [HTTPError] and a failed
    transfer raises the exception of [requests.get]. *)
Theorem get_page_outcome (url : str) (w w' : world) (r : result str)
    (Hrun : get_page site url w = (r, w')) :
  stdout w' = stdout w ++ [u "Fetching: " ++ url] /\
  requests w' = requests w ++ [url] /\
  match r with
  | Return html =>
      exists resp, site (requests w) url = inr resp /\ text resp = html /\
                   ((status_code resp < 400)%Z \/ (600 <= status_code resp)%Z)
  | Raise e =>
      (exists f, site (requests w) url = inl f /\ e = Requests f) \/
      (exists resp, site (requests w) url = inr resp /\
                    (400 <= status_code resp < 600)%Z /\
                    e = Requests (HTTPError (status_code resp)))
  end.
Proof.
  unfold get_page, bind, print, requests_get, raise_for_status in Hrun.
  cbn [stdout requests] in Hrun.
  destruct (site (requests w) url) as [f | resp] eqn:Hsite.
  - injection Hrun as <- <-; cbn; eauto 6.
  - destruct (Z.leb_spec 400 (status_code resp));
      destruct (Z.ltb_spec (status_code resp) 600);
      cbn in Hrun; injection Hrun as <- <-; cbn;
      (split; [reflexivity|]; split; [reflexivity|]).
    + right; exists resp; auto.
    + exists resp; auto.
    + exists resp; split; [reflexivity|]; split; [reflexivity|]; left; lia.
    + exists resp; split; [reflexivity|]; split; [reflexivity|]; left; lia.
Qed.

(** X5. With a page count of zero or less the loop does not run: nothing is
    printed, nothing is requested, and the price cleaning of the empty frame
    raises [KeyError('price_raw')]. *)
Theorem scrape_books_no_pages (N : Z) (w : world) (HN : (N <= 0)%Z) :
  scrape_books BeautifulSoup site N w = (Raise (KeyError (u "price_raw")), w).
Proof.
  rewrite scrape_books_run; unfold pages_of, range.
  replace (Z.to_nat (N + 1 - 1)) with 0 by lia.
  reflexivity.
Qed.

(** X6. When the loop has dealt with the pages 1..k-1, the page k is
    fetched and [parse_books] raises on it, [scrape_books] raises that very
    exception and stops: the pages after k are not requested, the "found"
    line of page k is not printed and the records gathered so far are
    lost. *)
Theorem parse_failure_aborts (N k : Z) (w w1 w2 : world) (e : exception)
    (gathered : list book) (html : str)
    (Hk : (1 <= k <= N)%Z)
    (Hbefore : for_pages BeautifulSoup site (range 1 k) [] w
               = (Return gathered, w1))
    (Hfetch : get_page site (page_url k) w1 = (Return html, w2))
    (Hparse : parse_books BeautifulSoup html = Raise e) :
  scrape_books BeautifulSoup site N w = (Raise e, w2) /\
  is_parse_failure e /\
  requests w2 = requests w ++ map page_url (range 1 (k + 1)) /\
  stdout w2 = stdout w1 ++ [u "Fetching: " ++ page_url k].
Proof.
  assert (Hrun : scrape_books BeautifulSoup site N w = (Raise e, w2)).
  { rewrite scrape_books_run; unfold pages_of.
    rewrite (range_split 1 k (N + 1)) by lia.
    rewrite for_pages_app, Hbefore.
    cbn [for_pages]; unfold bind at 1; rewrite Hfetch.
    unfold bind, lift; now rewrite Hparse. }
  split; [exact Hrun|]; split.
  - unfold parse_books in Hparse; cbv zeta in Hparse.
    destruct (mapM book_of _) as [bs|e'] eqn:Hm; [discriminate|].
    injection Hparse as ->.
    assert (Hex : exists art, book_of art = Raise e).
    { clear -Hm.
      induction (select article_product_pod (BeautifulSoup html))
        as [|a l IH]; cbn [mapM] in Hm; [discriminate|].
      destruct (book_of a) as [b|ea] eqn:Ha; cbn [rbind] in Hm.
      - destruct (mapM book_of l) as [ys|el]; cbn [rbind] in Hm;
          [discriminate|].
        injection Hm as ->; now apply IH.
      - injection Hm as ->; now exists a. }
    destruct Hex as [art Hart]; eapply book_of_Raise; eassumption.
  - rewrite get_page_run in Hfetch; injection Hfetch as _ <-.
    cbn [requests stdout]; split; [|reflexivity].
    rewrite (for_pages_requests _ _ _ _ _ _ _ Hbefore).
    now rewrite range_snoc, map_app, app_assoc by lia.
Qed.

(** X7. A price that cannot be read is found only when every page has been
    fetched: when the loop completes and the first record with an unreadable
    price is [b], [scrape_books] raises [ValueError] for the remainder of
    that price, after all N requests. *)
Theorem price_failure_after_all_pages (N : Z) (w w' : world)
    (pre post : list book) (b : book)
    (Hloop : for_pages BeautifulSoup site (range 1 (N + 1)) [] w
             = (Return (pre ++ b :: post), w'))
    (Hpre : forall x, In x pre ->
                      exists q, price_clean_of (price_raw x) = Return q)
    (Hbad : forall q, price_clean_of (price_raw b) <> Return q) :
  scrape_books BeautifulSoup site N w
  = (Raise (ValueError (keep_digits_and_dots (price_raw b))), w') /\
  requests w' = requests w ++ map page_url (range 1 (N + 1)).
Proof.
  split; [|exact (for_pages_requests _ _ _ _ _ _ _ Hloop)].
  rewrite scrape_books_run; unfold pages_of; rewrite Hloop.
  f_equal.
  rewrite clean_prices_nonempty by (now destruct pre).
  unfold str_replace; rewrite map_app, map_app; cbn [map].
  rewrite astype_float_first_failure; cbn [rbind].
  - now rewrite re_sub_keep.
  - intros y Hy; apply in_map_iff in Hy as (s & <- & Hs).
    apply in_map_iff in Hs as (x & <- & Hx); exact (Hpre x Hx).
  - exact Hbad.
Qed.

(** A table that is returned was built from at least one record. *)
Lemma scrape_books_rows (N : Z) (w w' : world)
      (df : DataFrame NormalizedBookRecord) :
  scrape_books BeautifulSoup site N w = (Return df, w') ->
  rows df <> [] /\
  Forall (fun r => price_clean_of (price_raw (raw r)) = Return (price_clean r))
         (rows df).
Proof.
  intros Hrun.
  apply scrape_books_Return in Hrun as (per & _ & Hclean & _).
  destruct (List.concat per) as [|b0 bs] eqn:Hrec; [discriminate|].
  apply clean_prices_Return in Hclean as [Hrows Hprices].
  split; [|exact Hprices].
  intros H; rewrite H in Hrows; discriminate.
Qed.

(** X8. [scrape_books] never returns an empty table: a table it returns
    has at least one row, and its columns are [title], [price_raw],
    [availability], [rating], [price_clean], in this order. *)
Theorem returned_table_shape (N : Z) (w w' : world)
    (df : DataFrame NormalizedBookRecord)
    (Hrun : scrape_books BeautifulSoup site N w = (Return df, w')) :
  rows df <> [] /\ columns df = table_columns.
Proof.
  split; [exact (proj1 (scrape_books_rows _ _ _ _ Hrun))|].
  apply scrape_books_Return in Hrun as (per & _ & Hclean & _).
  destruct (List.concat per) as [|b0 bs] eqn:Hrec; [discriminate|].
  rewrite clean_prices_nonempty in Hclean by discriminate.
  destruct (astype_float _) as [series|e]; [|discriminate].
  cbn [rbind] in Hclean; injection Hclean as <-; reflexivity.
Qed.

(** The lines printed by a loop that completes. *)
Lemma for_pages_stdout (pages : list Z) (all_books all_books' : list book)
      (w w' : world) :
  for_pages BeautifulSoup site pages all_books w = (Return all_books', w') ->
  exists per,
    per_page BeautifulSoup site (requests w) pages = Return per /\
    stdout w' =
      stdout w ++ flat_map (fun pb => progress_lines (fst pb) (length (snd pb)))
                           (combine pages per).
Proof.
  revert all_books w; induction pages as [|p pages IH]; intros all_books w.
  - cbn; unfold ret; intros [= _ <-]; exists []; cbn.
    now rewrite app_nil_r.
  - rewrite for_pages_cons; cbv zeta; cbn [per_page].
    destruct (page_books BeautifulSoup site (requests w) p) as [bs|e];
      [|discriminate].
    intros H; apply IH in H as (per & Hper & Hout).
    cbn [requests stdout] in Hper, Hout.
    rewrite Hper; cbn [rbind]; exists (bs :: per); split; [reflexivity|].
    rewrite Hout; cbn [combine flat_map fst snd]; unfold progress_lines.
    now rewrite <- !app_assoc.
Qed.

(** X10. A loop that completes has printed two lines per page, in page
    order: the "Fetching" line of the page, then its "found" line with the
    number of records extracted from it. *)
Theorem progress_log (N : Z) (w w' : world) (all_books : list book)
    (Hloop : for_pages BeautifulSoup site (range 1 (N + 1)) [] w
             = (Return all_books, w')) :
  exists per,
    per_page BeautifulSoup site (requests w) (pages_of N) = Return per /\
    stdout w' =
      stdout w ++ flat_map (fun pb => progress_lines (fst pb) (length (snd pb)))
                           (combine (pages_of N) per) /\
    length (stdout w') = length (stdout w) + 2 * length (pages_of N).
Proof.
  destruct (for_pages_stdout _ _ _ _ _ Hloop) as (per & Hper & Hout).
  exists per; split; [exact Hper|]; split; [exact Hout|].
  rewrite Hout, length_app; f_equal.
  apply per_page_of_run, Forall2_length in Hper.
  fold (pages_of N); clear Hout; revert per Hper.
  induction (pages_of N) as [|p ps IH]; intros [|bs per] Hlen;
    try discriminate; [reflexivity|].
  cbn [combine flat_map fst snd progress_lines app length].
  rewrite (IH per) by (now injection Hlen); cbn [length]; lia.
Qed.

End MoreDriverProperties.

Lemma get_page_outcome_witness :
  get_page Fixtures.site_good (page_url 4) Fixtures.world_good
  = (Raise (Requests (HTTPError 404)),
     {| stdout := stdout Fixtures.world_good
                    ++ [u "Fetching: " ++ page_url 4];
        requests := requests Fixtures.world_good ++ [page_url 4] |}) /\
  exists resp,
    Fixtures.site_good (requests Fixtures.world_good) (page_url 4) = inr resp /\
    (400 <= status_code resp < 600)%Z.
Proof.
  assert (H : get_page Fixtures.site_good (page_url 4) Fixtures.world_good
              = (Raise (Requests (HTTPError 404)),
                 {| stdout := stdout Fixtures.world_good
                                ++ [u "Fetching: " ++ page_url 4];
                    requests := requests Fixtures.world_good ++ [page_url 4] |}))
    by (vm_compute; reflexivity).
  split; [exact H|].
  destruct (get_page_outcome Fixtures.site_good _ _ _ _ H)
    as (_ & _ & [(f & Hf & _) | (resp & Hresp & Hst & _)]).
  - exfalso; vm_compute in Hf; discriminate Hf.
  - exists resp; split; [exact Hresp | exact Hst].
Defined.

Lemma scrape_books_no_pages_witness :
  (0 <= 0)%Z /\
  scrape_books Fixtures.parser Fixtures.site_good 0 Fixtures.w0
  = (Raise (KeyError (u "price_raw")), Fixtures.w0).
Proof.
  assert (H0 : (0 <= 0)%Z) by (intros D; discriminate D).
  split; [exact H0|].
  exact (scrape_books_no_pages Fixtures.parser Fixtures.site_good 0
           Fixtures.w0 H0).
Defined.

Lemma parse_failure_aborts_witness :
  for_pages Fixtures.parser MoreFixtures.site_torn (range 1 2) [] Fixtures.w0
  = (Return Fixtures.first_page_books, MoreFixtures.world_torn_1) /\
  get_page MoreFixtures.site_torn (page_url 2) MoreFixtures.world_torn_1
  = (Return (u "page-torn"), MoreFixtures.world_torn_2) /\
  parse_books Fixtures.parser (u "page-torn")
  = Raise (AttributeError (u "get_text")) /\
  scrape_books Fixtures.parser MoreFixtures.site_torn 3 Fixtures.w0
  = (Raise (AttributeError (u "get_text")), MoreFixtures.world_torn_2) /\
  requests MoreFixtures.world_torn_2 = [page_url 1; page_url 2].
Proof.
  assert (Hk : (1 <= 2 <= 3)%Z) by (split; intros D; discriminate D).
  assert (Hbefore : for_pages Fixtures.parser MoreFixtures.site_torn
                      (range 1 2) [] Fixtures.w0
                    = (Return Fixtures.first_page_books,
                       MoreFixtures.world_torn_1))
    by (vm_compute; reflexivity).
  assert (Hfetch : get_page MoreFixtures.site_torn (page_url 2)
                     MoreFixtures.world_torn_1
                   = (Return (u "page-torn"), MoreFixtures.world_torn_2))
    by (vm_compute; reflexivity).
  assert (Hparse : parse_books Fixtures.parser (u "page-torn")
                   = Raise (AttributeError (u "get_text")))
    by (vm_compute; reflexivity).
  split; [exact Hbefore|]; split; [exact Hfetch|]; split; [exact Hparse|].
  destruct (parse_failure_aborts Fixtures.parser MoreFixtures.site_torn 3 2
              Fixtures.w0 _ _ _ _ _ Hk Hbefore Hfetch Hparse)
    as (Hrun & _ & Hreq & _).
  split; [exact Hrun | exact Hreq].
Defined.

Lemma price_failure_after_all_pages_witness :
  for_pages Fixtures.parser MoreFixtures.site_free (range 1 (2 + 1)) []
            Fixtures.w0
  = (Return (Fixtures.first_page_books
               ++ {| title := u "Free"; price_raw := u "abc";
                     availability := u "In stock";
                     rating := Some (u "Two") |} :: []),
     MoreFixtures.world_free) /\
  scrape_books Fixtures.parser MoreFixtures.site_free 2 Fixtures.w0
  = (Raise (ValueError []), MoreFixtures.world_free) /\
  requests MoreFixtures.world_free = [page_url 1; page_url 2].
Proof.
  assert (Hloop : for_pages Fixtures.parser MoreFixtures.site_free
                    (range 1 (2 + 1)) [] Fixtures.w0
                  = (Return (Fixtures.first_page_books
                               ++ {| title := u "Free"; price_raw := u "abc";
                                     availability := u "In stock";
                                     rating := Some (u "Two") |} :: []),
                     MoreFixtures.world_free))
    by (vm_compute; reflexivity).
  split; [exact Hloop|].
  refine (price_failure_after_all_pages Fixtures.parser MoreFixtures.site_free
            2 Fixtures.w0 _ _ _ _ Hloop _ _).
  - intros x [<- | [<- | []]]; eexists; vm_compute; reflexivity.
  - intros q H; vm_compute in H; discriminate H.
Defined.

Lemma returned_table_shape_witness :
  scrape_books Fixtures.parser Fixtures.site_good 3 Fixtures.w0
  = (Return Fixtures.table_good, Fixtures.world_good) /\
  rows Fixtures.table_good <> [] /\
  columns Fixtures.table_good = table_columns.
Proof.
  assert (H : scrape_books Fixtures.parser Fixtures.site_good 3 Fixtures.w0
              = (Return Fixtures.table_good, Fixtures.world_good))
    by (vm_compute; reflexivity).
  split; [exact H|].
  exact (returned_table_shape Fixtures.parser Fixtures.site_good 3
           Fixtures.w0 Fixtures.world_good Fixtures.table_good H).
Defined.

Lemma progress_log_witness :
  for_pages Fixtures.parser Fixtures.site_good (range 1 (2 + 1)) []
            Fixtures.w0
  = (Return MoreFixtures.books_good_2, MoreFixtures.world_good_2) /\
  length (stdout MoreFixtures.world_good_2) = 4.
Proof.
  assert (H : for_pages Fixtures.parser Fixtures.site_good (range 1 (2 + 1))
                [] Fixtures.w0
              = (Return MoreFixtures.books_good_2, MoreFixtures.world_good_2))
    by (vm_compute; reflexivity).
  split; [exact H|].
  destruct (progress_log Fixtures.parser Fixtures.site_good 2 Fixtures.w0
              MoreFixtures.world_good_2 MoreFixtures.books_good_2 H)
    as (per & _ & _ & Hlen).
  exact Hlen.
Defined.

(** ** The page URLs *)

Lemma u_inj (s s' : String.string) : u s = u s' -> s = s'.
Proof.
  unfold u; intros H.
  rewrite <- (String.string_of_list_ascii_of_string s),
          <- (String.string_of_list_ascii_of_string s').
  f_equal.
  revert H; generalize (String.list_ascii_of_string s)
                       (String.list_ascii_of_string s').
  induction l as [|a l IH]; intros [|a' l']; cbn; try easy.
  intros [= Ha Hl]; f_equal; [|now apply IH].
  rewrite <- (ascii_N_embedding a), <- (ascii_N_embedding a'); now f_equal.
Qed.

Lemma str_of_int_inj (a b : Z) :
  (0 < a)%Z -> (0 < b)%Z -> str_of_int a = str_of_int b -> a = b.
Proof.
  intros Ha Hb H; apply u_inj in H.
  apply DecimalZ.to_int_inj.
  assert (Hnz : forall z, (0 < z)%Z ->
            Z.to_int z <> Decimal.Pos Decimal.Nil /\
            Z.to_int z <> Decimal.Neg Decimal.Nil).
  { intros [|p|p] Hz; try lia; cbn; split; [|discriminate].
    intros [= Hp]; exact (DecimalPos.Unsigned.to_uint_nonnil p Hp). }
  destruct (Hnz a Ha) as [Ha1 Ha2], (Hnz b Hb) as [Hb1 Hb2].
  pose proof (NilZero.isi (Z.to_int a) Ha1 Ha2) as Ia.
  pose proof (NilZero.isi (Z.to_int b) Hb1 Hb2) as Ib.
  rewrite H in Ia; congruence.
Qed.

Lemma page_url_inj (a b : Z) :
  (1 <= a)%Z -> (1 <= b)%Z -> page_url a = page_url b -> a = b.
Proof.
  intros Ha Hb; unfold page_url.
  destruct (Z.eqb_spec a 1) as [-> | Na], (Z.eqb_spec b 1) as [-> | Nb];
    [reflexivity | | |].
  - intros H; rewrite <- (app_nil_r BASE_URL) in H at 1.
    apply app_inv_head in H; discriminate H.
  - intros H; rewrite <- (app_nil_r BASE_URL) in H at 2.
    apply app_inv_head in H; discriminate H.
  - intros H; apply app_inv_head, app_inv_head, app_inv_tail in H.
    apply str_of_int_inj; [lia | lia | exact H].
Qed.

Lemma NoDup_map_inj_in {A B} (f : A -> B) (l : list A) :
  (forall x y, In x l -> In y l -> f x = f y -> x = y) ->
  NoDup l -> NoDup (map f l).
Proof.
  intros Hinj Hnd; induction Hnd as [|x l Hx _ IH]; cbn; constructor.
  - intros Hin; apply in_map_iff in Hin as (y & Hy & Hyl).
    apply Hx.
    rewrite (Hinj x y (or_introl eq_refl) (or_intror Hyl) (eq_sym Hy)).
    exact Hyl.
  - apply IH; intros a b Ha Hb; apply Hinj; now right.
Qed.

Lemma range_NoDup (a b : Z) : NoDup (range a b).
Proof.
  unfold range; apply NoDup_map_inj_in; [|apply seq_NoDup].
  intros x y _ _ H; lia.
Qed.

(** X9. The URLs of a run are pairwise distinct, whatever the page count:
    the root URL for page 1 and one ['catalogue/page-{k}.html'] per page
    k >= 2, so no page is requested twice. *)
Theorem page_urls_distinct (N : Z) : NoDup (map page_url (range 1 (N + 1))).
Proof.
  apply NoDup_map_inj_in; [|apply range_NoDup].
  intros x y Hx Hy; apply range_In in Hx, Hy.
  apply page_url_inj; lia.
Qed.

(** ** More on the price cleaning *)

Lemma alphabet_no_dot_digits (s : str) :
  forallb (fun c => is_digit c || is_dot c) s = true ->
  count_dots s = 0 -> forallb is_digit s = true.
Proof.
  unfold count_dots; induction s as [|c s IH]; cbn; [reflexivity|].
  intros H; apply andb_true_iff in H as [Hc Hs].
  destruct (is_dot c); cbn; [discriminate|].
  rewrite orb_false_r in Hc; rewrite Hc; cbn; auto.
Qed.

Lemma digits_existsb (s : str) :
  forallb is_digit s = true -> nonempty s = true -> existsb is_digit s = true.
Proof.
  destruct s as [|c s]; cbn; [discriminate|].
  intros H _; apply andb_true_iff in H as [-> _]; reflexivity.
Qed.

Lemma existsb_digit_nonempty (ip fp : str) (c : char) :
  is_digit c = false ->
  existsb is_digit (ip ++ c :: fp) = true -> nonempty ip || nonempty fp = true.
Proof.
  intros Hc; rewrite existsb_app; cbn; rewrite Hc; cbn.
  destruct ip, fp; cbn; try reflexivity; discriminate.
Qed.

Lemma span_digits_rest (s ip rest : str) (c : char) :
  span_digits s = (ip, c :: rest) -> is_digit c = false.
Proof.
  revert ip; induction s as [|d s IH]; intros ip; cbn; [discriminate|].
  destruct (is_digit d) eqn:Hd.
  - destruct (span_digits s) as [ds r] eqn:Hs.
    intros [= _ ->]; exact (IH ds eq_refl).
  - intros [= _ <- _]; exact Hd.
Qed.

Lemma py_float_succeeds_iff (s : str) :
  forallb (fun c => is_digit c || is_dot c) s = true ->
  (exists q, py_float s = Return q) <->
  existsb is_digit s = true /\ count_dots s <= 1.
Proof.
  intros Halpha; unfold py_float.
  destruct (span_digits s) as [ip rest] eqn:Hspan.
  pose proof Hspan as Hrest.
  apply span_digits_spec in Hspan as [Hs Hip]; subst s.
  rewrite count_dots_app, (digits_no_dot _ Hip); cbn [plus].
  destruct rest as [|c fp].
  - rewrite app_nil_r; split.
    + destruct (nonempty ip) eqn:Hne; [|intros [q [=]]].
      intros _; split; [now apply digits_existsb | cbn; lia].
    + intros [Hex _]; destruct ip; [discriminate | cbn; eauto].
  - pose proof (span_digits_rest _ _ _ _ Hrest) as Hc.
    rewrite forallb_app in Halpha; apply andb_true_iff in Halpha as [_ Ha].
    cbn in Ha; rewrite Hc in Ha; cbn in Ha.
    apply andb_true_iff in Ha as [Hdot Hfp]; rewrite Hdot; cbn [andb].
    change (c :: fp) with ([c] ++ fp); rewrite count_dots_app.
    unfold count_dots at 1; cbn [filter]; rewrite Hdot; cbn [length plus].
    split.
    + destruct (forallb is_digit fp) eqn:Hd; cbn [andb]; [|intros [q [=]]].
      destruct (nonempty ip || nonempty fp) eqn:Hne; [|intros [q [=]]].
      intros _; split; [|rewrite (digits_no_dot _ Hd); lia].
      rewrite existsb_app; cbn; rewrite Hc; cbn.
      destruct (nonempty ip) eqn:Hnip.
      * now rewrite (digits_existsb _ Hip Hnip).
      * cbn in Hne; rewrite (digits_existsb _ Hd Hne); apply orb_true_r.
    + intros [Hex Hdots].
      assert (Hd : forallb is_digit fp = true)
        by (apply alphabet_no_dot_digits; [exact Hfp | lia]).
      rewrite Hd, (existsb_digit_nonempty ip fp c Hc Hex); cbn; eauto.
Qed.

Lemma keep_app (a b : str) :
  keep_digits_and_dots (a ++ b)
  = keep_digits_and_dots a ++ keep_digits_and_dots b.
Proof. apply filter_app. Qed.

Lemma map_snd_combine {A B} (l1 : list A) (l2 : list B) :
  length l2 = length l1 -> map snd (combine l1 l2) = l2.
Proof.
  revert l2; induction l1 as [|x l1 IH]; intros [|y l2]; cbn; try easy.
  intros [= H]; now rewrite IH.
Qed.

(** The price column the cleaning block computes. *)
Lemma clean_prices_column (records : list book) :
  price_column (clean_prices (pd_DataFrame records)) =
  match records with
  | [] => Raise (KeyError (u "price_raw"))
  | _ :: _ =>
      astype_float (map (fun b => keep_digits_and_dots (price_raw b)) records)
  end.
Proof.
  destruct records as [|b0 bs] eqn:E; [reflexivity|]; rewrite <- E.
  rewrite clean_prices_nonempty by (subst; discriminate).
  unfold str_replace; rewrite map_map.
  rewrite (map_ext _ (fun b => keep_digits_and_dots (price_raw b)))
    by (intros x; apply re_sub_keep).
  destruct (astype_float _) as [series|e] eqn:Hs; cbn [rbind price_column];
    [|reflexivity].
  f_equal; unfold df_setitem_price_clean; cbn [rows pd_DataFrame].
  rewrite map_map; cbn [price_clean].
  apply map_snd_combine.
  apply mapM_length in Hs; now rewrite length_map in Hs.
Qed.

(** X11. The price cleaning of a frame succeeds exactly when the frame has a
    record and, for every record, what is left of its [price_raw] after
    dropping the other characters has at least one digit and at most one
    point: ["5."] and [".5"] are read, ["."], [""] and ["1.2.3"] make the
    whole cleaning raise.  So a run of [scrape_books] whose loop completes
    returns a table exactly in that case. *)
Theorem price_clean_succeeds_iff (records : list book) :
  ((exists df, clean_prices (pd_DataFrame records) = Return df) <->
   records <> [] /\
   forall b, In b records ->
     existsb is_digit (keep_digits_and_dots (price_raw b)) = true /\
     count_dots (keep_digits_and_dots (price_raw b)) <= 1) /\
  (forall BeautifulSoup site N w w',
      for_pages BeautifulSoup site (range 1 (N + 1)) [] w
      = (Return records, w') ->
      ((exists df, scrape_books BeautifulSoup site N w = (Return df, w')) <->
       records <> [] /\
       forall b, In b records ->
         existsb is_digit (keep_digits_and_dots (price_raw b)) = true /\
         count_dots (keep_digits_and_dots (price_raw b)) <= 1)).
Proof.
  assert (Hiff :
    (exists df, clean_prices (pd_DataFrame records) = Return df) <->
    records <> [] /\
    forall b, In b records ->
      existsb is_digit (keep_digits_and_dots (price_raw b)) = true /\
      count_dots (keep_digits_and_dots (price_raw b)) <= 1).
  { split.
    - intros [df Hdf].
      pose proof (clean_prices_column records) as Hcol.
      rewrite Hdf in Hcol; cbn [price_column] in Hcol.
      destruct records as [|b0 bs] eqn:E; [discriminate|]; rewrite <- E in *.
      split; [subst; discriminate|].
      intros b Hb; symmetry in Hcol; apply mapM_Return in Hcol.
      destruct (@Forall2_In_l _ _ _ _ _ (keep_digits_and_dots (price_raw b))
                  Hcol) as (q & _ & Hq).
      { now apply in_map with (f := fun x => keep_digits_and_dots (price_raw x)). }
      apply py_float_succeeds_iff; [|eauto].
      rewrite <- re_sub_keep; apply re_sub_alphabet.
    - intros [Hne Hall].
      destruct (mapM_all_Return py_float
                  (map (fun b => keep_digits_and_dots (price_raw b)) records))
        as [series Hs].
      { intros x Hx; apply in_map_iff in Hx as (b & <- & Hb).
        apply py_float_succeeds_iff; [|exact (Hall b Hb)].
        rewrite <- re_sub_keep; apply re_sub_alphabet. }
      pose proof (clean_prices_column records) as Hcol.
      destruct records as [|b0 bs] eqn:E; [easy|]; rewrite <- E in *.
      unfold astype_float in Hcol; rewrite Hs in Hcol.
      destruct (clean_prices (pd_DataFrame records)) as [df|e];
        [eauto | discriminate]. }
  split; [exact Hiff|].
  intros BeautifulSoup site N w w' Hloop.
  rewrite scrape_books_run; fold (pages_of N) in Hloop; rewrite Hloop.
  rewrite <- Hiff; split.
  - intros [df [= Hdf]]; eauto.
  - intros [df Hdf]; exists df; now rewrite Hdf.
Qed.

(** X12. Characters that are neither digits nor points are ignored by the
    price cleaning wherever they stand in a [price_raw]: with or without
    them the cleaning of the frame gives the same price column, or raises
    the same exception.  A currency sign behind the number, a thousands
    separator and blanks go unnoticed, and so does a minus sign: a negative
    price is read as positive. *)
Theorem noise_is_ignored_anywhere (pre post : list book) (b b' : book)
    (a noise c : str)
    (Hnoise : forallb (fun ch => negb (is_digit ch || is_dot ch)) noise = true)
    (Hb : price_raw b = a ++ noise ++ c)
    (Hb' : price_raw b' = a ++ c) :
  price_column (clean_prices (pd_DataFrame (pre ++ b :: post)))
  = price_column (clean_prices (pd_DataFrame (pre ++ b' :: post))).
Proof.
  assert (Hkeep : keep_digits_and_dots (price_raw b)
                  = keep_digits_and_dots (price_raw b')).
  { rewrite Hb, Hb', !keep_app.
    replace (keep_digits_and_dots noise) with (@nil char); [reflexivity|].
    symmetry; unfold keep_digits_and_dots; clear Hb.
    induction noise as [|ch noise IH]; cbn in *; [reflexivity|].
    apply andb_true_iff in Hnoise as [Hc Hn].
    apply negb_true_iff in Hc; rewrite Hc; auto. }
  rewrite !clean_prices_column.
  destruct pre as [|p0 pre]; cbn [app map]; rewrite ?map_app; cbn [map];
    now rewrite Hkeep.
Qed.

Lemma noise_is_ignored_anywhere_witness :
  price_column
    (clean_prices
       (pd_DataFrame
          ([] ++ {| title := u "Ledger"; price_raw := u "-1" ++ u "," ++ u "234.50";
                    availability := u "In stock"; rating := None |} :: [])))
  = Return [Finite (Qmake 2469 2)].
Proof.
  rewrite (noise_is_ignored_anywhere [] []
             {| title := u "Ledger"; price_raw := u "-1" ++ u "," ++ u "234.50";
                availability := u "In stock"; rating := None |}
             {| title := u "Ledger"; price_raw := u "-1" ++ u "234.50";
                availability := u "In stock"; rating := None |}
             (u "-1") (u ",") (u "234.50") eq_refl eq_refl eq_refl).
  vm_compute; reflexivity.
Defined.

(** ** The price column: minimum, maximum and where they stand *)

Section BestOf.

Variable better : Q -> Q -> bool.
Variable R : Q -> Q -> Prop.
Hypothesis R_trans : forall a b c, R a b -> R b c -> R a c.
Hypothesis R_refl : forall a, R a a.
Hypothesis better_true : forall y m, better y m = true -> R y m /\ ~ R m y.
Hypothesis better_false : forall y m, better y m = false -> R m y.

(** The scan keeps the first of the best values: everything before it is
    strictly worse, nothing after it is better. *)
Lemma argbest_from_spec (s done pre0 mid : list Q) (best : Q) :
  done = pre0 ++ best :: mid ->
  (forall y, In y pre0 -> ~ R y best) ->
  (forall y, In y mid -> R best y) ->
  exists pre r post,
    done ++ s = pre ++ r :: post /\
    argbest_from better s (length done) best (length pre0) = length pre /\
    fold_left (fun m y => if better y m then y else m) s best = r /\
    (forall y, In y pre -> ~ R y r) /\
    (forall y, In y post -> R r y).
Proof.
  revert done pre0 mid best; induction s as [|y s IH];
    intros done pre0 mid best Hdone Hpre Hmid.
  - exists pre0, best, mid; rewrite app_nil_r; cbn; auto.
  - cbn [argbest_from fold_left].
    destruct (better y best) eqn:Hb.
    + destruct (better_true _ _ Hb) as [Hyb Hby].
      destruct (IH (done ++ [y]) done [] y) as (pre & r & post & H1 & H2 & H3).
      * reflexivity.
      * intros z Hz Hzy; subst done.
        apply in_app_iff in Hz as [Hz | [<- | Hz]].
        -- apply (Hpre z Hz); eauto.
        -- contradiction.
        -- apply Hby; eauto.
      * intros z [].
      * rewrite length_app, Nat.add_1_r in H2.
        rewrite <- app_assoc in H1.
        exists pre, r, post; auto.
    + pose proof (better_false _ _ Hb) as Hby.
      destruct (IH (done ++ [y]) pre0 (mid ++ [y]) best)
        as (pre & r & post & H1 & H2 & H3).
      * subst done; now rewrite <- app_assoc.
      * exact Hpre.
      * intros z Hz; apply in_app_iff in Hz as [Hz | [<- | []]]; auto.
      * rewrite length_app, Nat.add_1_r in H2.
        rewrite <- app_assoc in H1.
        exists pre, r, post; auto.
Qed.

Lemma argbest_first (x : Q) (s : list Q) :
  exists pre r post,
    x :: s = pre ++ r :: post /\
    argbest_from better s 1 x 0 = length pre /\
    series_best better (x :: s) = Some r /\
    (forall y, In y pre -> ~ R y r) /\
    (forall y, In y post -> R r y).
Proof.
  destruct (argbest_from_spec s [x] [] [] x eq_refl)
    as (pre & r & post & H1 & H2 & H3 & H4 & H5); try easy.
  exists pre, r, post; cbn [series_best]; rewrite H3; auto.
Qed.

End BestOf.

Lemma Qlt_bool_true (y m : Q) :
  Qlt_bool y m = true -> (y <= m)%Q /\ ~ (m <= y)%Q.
Proof.
  unfold Qlt_bool; intros H; apply negb_true_iff in H.
  assert (Hn : ~ (m <= y)%Q)
    by (intros Hle; apply Qle_bool_iff in Hle; congruence).
  split; [apply Qlt_le_weak, Qnot_le_lt, Hn | exact Hn].
Qed.

Lemma Qlt_bool_false (y m : Q) : Qlt_bool y m = false -> (m <= y)%Q.
Proof.
  unfold Qlt_bool; intros H; apply negb_false_iff in H.
  now apply Qle_bool_iff.
Qed.

(** The first minimum of a non-empty column. *)
Lemma idxmin_first (x : Q) (s : list Q) :
  exists pre r post,
    x :: s = pre ++ r :: post /\
    idxmin (x :: s) = Some (length pre) /\
    series_min (x :: s) = Some r /\
    (forall y, In y pre -> (r < y)%Q) /\
    (forall y, In y post -> (r <= y)%Q).
Proof.
  destruct (argbest_first Qlt_bool Qle Qle_trans Qle_refl Qlt_bool_true
              Qlt_bool_false x s)
    as (pre & r & post & H1 & H2 & H3 & H4 & H5).
  exists pre, r, post; unfold idxmin, series_min; rewrite H2.
  repeat (split; [assumption || reflexivity|]).
  split; [|exact H5].
  intros y Hy; apply Qnot_le_lt, (H4 y Hy).
Qed.

(** The first maximum of a non-empty column. *)
Lemma idxmax_first (x : Q) (s : list Q) :
  exists pre r post,
    x :: s = pre ++ r :: post /\
    idxmax (x :: s) = Some (length pre) /\
    series_max (x :: s) = Some r /\
    (forall y, In y pre -> (y < r)%Q) /\
    (forall y, In y post -> (y <= r)%Q).
Proof.
  destruct (argbest_first (fun y m => Qlt_bool m y) (fun a b => (b <= a)%Q))
    with (x := x) (s := s)
    as (pre & r & post & H1 & H2 & H3 & H4 & H5).
  - intros a b c Hab Hbc; eapply Qle_trans; eassumption.
  - intros a; apply Qle_refl.
  - intros y m H; apply Qlt_bool_true in H; exact H.
  - intros y m H; apply Qlt_bool_false in H; exact H.
  - exists pre, r, post; unfold idxmax, series_max; rewrite H2.
    repeat (split; [assumption || reflexivity|]).
    split; [|exact H5].
    intros y Hy; apply Qnot_le_lt, (H4 y Hy).
Qed.

Lemma map_eq_split {A B} (f : A -> B) (l : list A) (a c : list B) (b : B) :
  map f l = a ++ b :: c ->
  exists pre r post,
    l = pre ++ r :: post /\ map f pre = a /\ f r = b /\ map f post = c.
Proof.
  intros H; apply map_eq_app in H as (pre & l2 & -> & Hpre & H2).
  apply map_eq_cons in H2 as (r & post & -> & Hr & Hpost).
  exists pre, r, post; auto.
Qed.

Lemma nth_error_middle {A} (pre post : list A) (r : A) :
  nth_error (pre ++ r :: post) (length pre) = Some r.
Proof.
  rewrite nth_error_app2 by lia; now rewrite Nat.sub_diag.
Qed.

(** X18. [books_analysis.py] names as cheapest book the first row, in file
    order, whose price is the minimum of the column: every row before it is
    strictly more expensive and no row after it is cheaper.  On a frame
    without rows [idxmin] raises and no book is named. *)
Theorem cheapest_book_first_minimum {row T : Type} (title_of : row -> T)
    (price_of : row -> Q) (df : list row) (Hdf : df <> []) :
  cheapest_book title_of price_of [] = None /\
  exists pre r post,
    df = pre ++ r :: post /\
    cheapest_book title_of price_of df = Some (title_of r) /\
    series_min (map price_of df) = Some (price_of r) /\
    (forall x, In x pre -> (price_of r < price_of x)%Q) /\
    (forall x, In x post -> (price_of r <= price_of x)%Q).
Proof.
  split; [reflexivity|].
  destruct df as [|x0 df0] eqn:Edf; [easy|]; rewrite <- Edf; clear Hdf.
  assert (Hmap : map price_of df = price_of x0 :: map price_of df0)
    by now subst df.
  destruct (idxmin_first (price_of x0) (map price_of df0))
    as (a & b & c & Hsplit & Hidx & Hmin & Hpre & Hpost).
  rewrite <- Hmap in Hsplit, Hidx, Hmin.
  apply map_eq_split in Hsplit as (pre & r & post & Hdf & <- & <- & <-).
  exists pre, r, post; split; [exact Hdf|].
  unfold cheapest_book; rewrite Hidx, length_map.
  rewrite Hdf at 1; rewrite nth_error_middle; cbn [option_map].
  split; [reflexivity|]; split; [exact Hmin|]; split.
  - intros y Hy; apply Hpre; now apply in_map.
  - intros y Hy; apply Hpost; now apply in_map.
Qed.

Lemma cheapest_book_first_minimum_witness :
  MoreFixtures.shelf <> [] /\
  cheapest_book fst snd MoreFixtures.shelf = Some "Emma"%string /\
  exists pre r post,
    MoreFixtures.shelf = pre ++ r :: post /\
    cheapest_book fst snd MoreFixtures.shelf = Some (fst r).
Proof.
  assert (Hne : MoreFixtures.shelf <> []) by discriminate.
  split; [exact Hne|]; split; [vm_compute; reflexivity|].
  destruct (cheapest_book_first_minimum fst snd MoreFixtures.shelf Hne)
    as (_ & pre & r & post & Hsplit & Hbook & _).
  exists pre, r, post; split; [exact Hsplit | exact Hbook].
Defined.

(** X19. The most expensive book named by [books_analysis.py] is the first
    row, in file order, whose price is the maximum of the column: every row
    before it is strictly cheaper and no row after it is more expensive. *)
Theorem costliest_book_first_maximum {row T : Type} (title_of : row -> T)
    (price_of : row -> Q) (df : list row) (Hdf : df <> []) :
  costliest_book title_of price_of [] = None /\
  exists pre r post,
    df = pre ++ r :: post /\
    costliest_book title_of price_of df = Some (title_of r) /\
    series_max (map price_of df) = Some (price_of r) /\
    (forall x, In x pre -> (price_of x < price_of r)%Q) /\
    (forall x, In x post -> (price_of x <= price_of r)%Q).
Proof.
  split; [reflexivity|].
  destruct df as [|x0 df0] eqn:Edf; [easy|]; rewrite <- Edf; clear Hdf.
  assert (Hmap : map price_of df = price_of x0 :: map price_of df0)
    by now subst df.
  destruct (idxmax_first (price_of x0) (map price_of df0))
    as (a & b & c & Hsplit & Hidx & Hmax & Hpre & Hpost).
  rewrite <- Hmap in Hsplit, Hidx, Hmax.
  apply map_eq_split in Hsplit as (pre & r & post & Hdf & <- & <- & <-).
  exists pre, r, post; split; [exact Hdf|].
  unfold costliest_book; rewrite Hidx, length_map.
  rewrite Hdf at 1; rewrite nth_error_middle; cbn [option_map].
  split; [reflexivity|]; split; [exact Hmax|]; split.
  - intros y Hy; apply Hpre; now apply in_map.
  - intros y Hy; apply Hpost; now apply in_map.
Qed.

Lemma costliest_book_first_maximum_witness :
  MoreFixtures.shelf <> [] /\
  costliest_book fst snd MoreFixtures.shelf = Some "Dune"%string /\
  exists pre r post,
    MoreFixtures.shelf = pre ++ r :: post /\
    costliest_book fst snd MoreFixtures.shelf = Some (fst r).
Proof.
  assert (Hne : MoreFixtures.shelf <> []) by discriminate.
  split; [exact Hne|]; split; [vm_compute; reflexivity|].
  destruct (costliest_book_first_maximum fst snd MoreFixtures.shelf Hne)
    as (_ & pre & r & post & Hsplit & Hbook & _).
  exists pre, r, post; split; [exact Hsplit | exact Hbook].
Defined.

(** ** The dashboard: key figures and filters *)

Section FoldBest.

Variable T : Type.
Variable better : T -> T -> bool.
Variable R : T -> T -> Prop.
Hypothesis R_trans : forall a b c, R a b -> R b c -> R a c.
Hypothesis R_refl : forall a, R a a.
Hypothesis better_true : forall y m, better y m = true -> R y m.
Hypothesis better_false : forall y m, better y m = false -> R m y.

(** The value the scan ends with is one of the values and is at least as
    good as each of them. *)
Lemma fold_best_bounds (s : list T) (x : T) :
  let m := fold_left (fun m y => if better y m then y else m) s x in
  In m (x :: s) /\ forall y, In y (x :: s) -> R m y.
Proof.
  revert x; induction s as [|y s IH]; intros x; cbn [fold_left].
  - cbv zeta; split; [now left|]; intros y [<- | []]; apply R_refl.
  - destruct (better y x) eqn:Hb; cbv zeta.
    + destruct (IH y) as [Hin Hall]; cbv zeta in Hin, Hall.
      split; [now right|].
      intros z [<- | Hz]; [|exact (Hall z Hz)].
      eapply R_trans; [apply Hall; now left | now apply better_true].
    + destruct (IH x) as [Hin Hall]; cbv zeta in Hin, Hall.
      split; [destruct Hin as [<- | Hin]; [now left | now right; right]|].
      intros z [<- | [<- | Hz]].
      * apply Hall; now left.
      * eapply R_trans; [apply Hall; now left | now apply better_false].
      * apply Hall; now right.
Qed.

End FoldBest.

Lemma float_leb_refl (a : float) : float_leb a a = true.
Proof. destruct a; cbn; [apply Qle_bool_iff, Qle_refl | reflexivity]. Qed.

Lemma float_leb_trans (a b c : float) :
  float_leb a b = true -> float_leb b c = true -> float_leb a c = true.
Proof.
  destruct a as [x|], b as [y|], c as [z|]; cbn; try easy.
  rewrite !Qle_bool_iff; apply Qle_trans.
Qed.

Lemma float_ltb_true (y m : float) :
  float_ltb y m = true -> float_leb y m = true.
Proof.
  unfold float_ltb; destruct y as [a|], m as [b|]; cbn; try easy.
  intros H; apply negb_true_iff in H.
  apply Qle_bool_iff, Qlt_le_weak, Qnot_le_lt.
  intros Hle; apply Qle_bool_iff in Hle; congruence.
Qed.

Lemma float_ltb_false (y m : float) :
  float_ltb y m = false -> float_leb m y = true.
Proof. unfold float_ltb; intros H; now apply negb_false_iff in H. Qed.

Lemma price_min_max_bounds (s : list float) :
  s <> [] ->
  exists m M,
    price_min s = Some m /\ price_max s = Some M /\ In m s /\ In M s /\
    forall p, In p s -> float_leb m p = true /\ float_leb p M = true.
Proof.
  destruct s as [|x s]; [easy|]; intros _.
  destruct (fold_best_bounds float float_ltb
              (fun a b => float_leb a b = true)
              float_leb_trans float_leb_refl float_ltb_true float_ltb_false
              s x) as [Hm Hmin].
  destruct (fold_best_bounds float (fun y m => float_ltb m y)
              (fun a b => float_leb b a = true)) with (s := s) (x := x)
    as [HM Hmax].
  - intros a b c Hab Hbc; eapply float_leb_trans; eassumption.
  - intros a; apply float_leb_refl.
  - intros y m H; now apply float_ltb_true.
  - intros y m H; now apply float_ltb_false.
  - cbv zeta in Hm, Hmin, HM, Hmax.
    eexists; eexists; split; [reflexivity|]; split; [reflexivity|].
    split; [exact Hm|]; split; [exact HM|].
    intros p Hp; split; [exact (Hmin p Hp) | exact (Hmax p Hp)].
Qed.

Lemma filter_all {A} (p : A -> bool) (l : list A) :
  (forall x, In x l -> p x = true) -> filter p l = l.
Proof.
  induction l as [|x l IH]; cbn; [reflexivity|]; intros H.
  rewrite (H x (or_introl eq_refl)), IH; [reflexivity|].
  intros y Hy; apply H; now right.
Qed.

Lemma sublist_refl {A} (l : list A) : sublist l l.
Proof. induction l; constructor; assumption. Qed.

Lemma sublist_filter {A} (p : A -> bool) (l1 l2 : list A) :
  sublist l1 l2 -> sublist (filter p l1) l2.
Proof.
  induction 1 as [|x l1 l2 _ IH|x l1 l2 _ IH]; cbn.
  - constructor.
  - now constructor.
  - destruct (p x); now constructor.
Qed.

Section KeyFigures.

Variable BeautifulSoup : str -> PageElement.
Variable site : list str -> str -> RequestException + Response.

(** X14. On a table returned by [scrape_books] the minimum and the maximum
    price shown by the dashboard are prices of the table (never the NaN of
    an empty column), the minimum is not negative, and every price of the
    table lies between them. *)
Theorem price_key_figures (N : Z) (w w' : world)
    (df : DataFrame NormalizedBookRecord)
    (Hrun : scrape_books BeautifulSoup site N w = (Return df, w')) :
  exists m M,
    price_min (map price_clean (rows df)) = Some m /\
    price_max (map price_clean (rows df)) = Some M /\
    float_leb (Finite 0) m = true /\ float_leb m M = true /\
    Forall (fun r => float_leb m (price_clean r) = true /\
                     float_leb (price_clean r) M = true)
           (rows df).
Proof.
  destruct (scrape_books_rows _ _ _ _ _ _ Hrun) as [Hne Hprices].
  destruct (price_min_max_bounds (map price_clean (rows df)))
    as (m & M & Hmin & Hmax & Hm & HM & Hb).
  { intros H; apply map_eq_nil in H; contradiction. }
  exists m, M; split; [exact Hmin|]; split; [exact Hmax|].
  split; [|split].
  - apply in_map_iff in Hm as (r & <- & Hr).
    rewrite Forall_forall in Hprices.
    exact (proj2 (@price_normalizer_value_aux _ _ (Hprices r Hr))).
  - exact (proj2 (Hb m Hm)).
  - apply Forall_forall; intros r Hr; apply Hb; now apply in_map.
Qed.

End KeyFigures.

Lemma price_key_figures_witness :
  scrape_books Fixtures.parser Fixtures.site_good 3 Fixtures.w0
  = (Return Fixtures.table_good, Fixtures.world_good) /\
  exists m M,
    price_min (map price_clean (rows Fixtures.table_good)) = Some m /\
    price_max (map price_clean (rows Fixtures.table_good)) = Some M /\
    float_leb (Finite 0) m = true /\ float_leb m M = true.
Proof.
  assert (H : scrape_books Fixtures.parser Fixtures.site_good 3 Fixtures.w0
              = (Return Fixtures.table_good, Fixtures.world_good))
    by (vm_compute; reflexivity).
  split; [exact H|].
  destruct (price_key_figures Fixtures.parser Fixtures.site_good 3
              Fixtures.w0 Fixtures.world_good Fixtures.table_good H)
    as (m & M & H1 & H2 & H3 & H4 & _).
  exists m, M; split; [exact H1|]; split; [exact H2|];
    split; [exact H3 | exact H4].
Defined.

Section DashboardProperties.

Variable re_search_ignorecase : str -> option (str -> bool).

(** X15. With no keyword, no rating selected and the price range left at
    its default, from the minimum to the maximum price of the table, the
    filters keep every row: the filtered table is the table. *)
Theorem default_filters_show_all (df : DataFrame NormalizedBookRecord)
    (m M : float)
    (Hmin : price_min (map price_clean (rows df)) = Some m)
    (Hmax : price_max (map price_clean (rows df)) = Some M) :
  apply_filters re_search_ignorecase [] [] (m, M) df = Some df.
Proof.
  destruct (price_min_max_bounds (map price_clean (rows df)))
    as (m' & M' & Hmin' & Hmax' & _ & _ & Hb).
  { intros H; rewrite H in Hmin; discriminate. }
  rewrite Hmin in Hmin'; rewrite Hmax in Hmax'.
  injection Hmin' as <-; injection Hmax' as <-.
  unfold apply_filters, df_mask; cbn [nonempty].
  rewrite filter_all; [now destruct df|].
  intros r Hr; unfold in_price_range; cbn [fst snd].
  destruct (Hb (price_clean r) (in_map _ _ _ Hr)) as [H1 H2].
  apply andb_true_iff; split; assumption.
Qed.

(** X16. Whatever the keyword, the ratings selected and the price range,
    the filtered table has the columns of the table and its rows are rows
    of the table in the same order, none added or repeated; every row kept
    has its price in the range, and once a rating is selected every row
    kept has one of the selected ratings, so the books without rating are
    hidden. *)
Theorem filters_only_hide_rows (search_keyword : str)
    (rating_filter : list str) (price_range : float * float)
    (df out : DataFrame NormalizedBookRecord)
    (Hout : apply_filters re_search_ignorecase search_keyword rating_filter
                          price_range df = Some out) :
  columns out = columns df /\
  sublist (rows out) (rows df) /\
  Forall (fun r => float_leb (fst price_range) (price_clean r) = true /\
                   float_leb (price_clean r) (snd price_range) = true)
         (rows out) /\
  (rating_filter <> [] ->
   Forall (fun r => exists s, rating (raw r) = Some s /\ In s rating_filter)
          (rows out)).
Proof.
  unfold apply_filters in Hout.
  set (step1 := if nonempty search_keyword then _ else _) in Hout.
  assert (H1 : forall d, step1 = Some d ->
                         columns d = columns df /\ sublist (rows d) (rows df)).
  { subst step1; intros d.
    destruct (nonempty search_keyword).
    - destruct (re_search_ignorecase search_keyword) as [search|];
        [|discriminate].
      intros [= <-]; split; [reflexivity|].
      apply sublist_filter, sublist_refl.
    - intros [= <-]; split; [reflexivity | apply sublist_refl]. }
  destruct step1 as [d1|]; [|discriminate].
  destruct (H1 d1 eq_refl) as [Hc1 Hs1]; clear H1.
  injection Hout as <-; cbn [df_mask columns rows].
  split; [now destruct rating_filter|].
  split; [apply sublist_filter; destruct rating_filter;
          [exact Hs1 | now apply sublist_filter]|].
  split.
  - apply Forall_forall; intros r Hr; apply filter_In in Hr as [_ Hr].
    unfold in_price_range in Hr; apply andb_true_iff in Hr as [Hlo Hhi].
    split; assumption.
  - intros Hrf; apply Forall_forall; intros r Hr.
    apply filter_In in Hr as [Hr _].
    destruct rating_filter as [|s0 rf]; [easy|].
    cbn [df_mask rows] in Hr; apply filter_In in Hr as [_ Hr].
    unfold isin in Hr; destruct (rating (raw r)) as [s|]; [|discriminate].
    exists s; split; [reflexivity|].
    apply existsb_exists in Hr as (x & Hx & Heq).
    apply str_eqb_eq in Heq; now subst x.
Qed.

End DashboardProperties.

Lemma default_filters_show_all_witness :
  price_min (map price_clean (rows Fixtures.table_good))
  = Some MoreFixtures.good_min /\
  price_max (map price_clean (rows Fixtures.table_good))
  = Some MoreFixtures.good_max /\
  apply_filters MoreFixtures.toy_search [] []
                (MoreFixtures.good_min, MoreFixtures.good_max)
                Fixtures.table_good
  = Some Fixtures.table_good.
Proof.
  assert (Hmin : price_min (map price_clean (rows Fixtures.table_good))
                 = Some MoreFixtures.good_min) by (vm_compute; reflexivity).
  assert (Hmax : price_max (map price_clean (rows Fixtures.table_good))
                 = Some MoreFixtures.good_max) by (vm_compute; reflexivity).
  split; [exact Hmin|]; split; [exact Hmax|].
  exact (default_filters_show_all MoreFixtures.toy_search Fixtures.table_good
           _ _ Hmin Hmax).
Defined.

Lemma filters_only_hide_rows_witness :
  exists out,
    apply_filters MoreFixtures.toy_search (u "the") [u "Three"; u "One"]
                  (Finite 0, Finite (Qmake 52 1)) Fixtures.table_good
    = Some out /\
    length (rows out) = 2 /\
    sublist (rows out) (rows Fixtures.table_good).
Proof.
  eexists; split; [vm_compute; reflexivity|]; split; [reflexivity|].
  refine (proj1 (proj2 (filters_only_hide_rows MoreFixtures.toy_search
                          (u "the") [u "Three"; u "One"]
                          (Finite 0, Finite (Qmake 52 1))
                          Fixtures.table_good _ _))).
  vm_compute; reflexivity.
Defined.

(** ** Whatever happens *)

(** X17. Cleaning is idempotent: a string that went through the
    substitution is left as it is by a second pass, and its price is the
    price of the original string. *)
Theorem price_cleaning_idempotent (pr : str) :
  re_sub not_digit_or_dot [] (re_sub not_digit_or_dot [] pr)
  = re_sub not_digit_or_dot [] pr /\
  price_clean_of (re_sub not_digit_or_dot [] pr) = price_clean_of pr.
Proof.
  assert (H : re_sub not_digit_or_dot [] (re_sub not_digit_or_dot [] pr)
              = re_sub not_digit_or_dot [] pr).
  { rewrite !re_sub_keep; unfold keep_digits_and_dots.
    apply filter_all; intros c Hc; now apply filter_In in Hc. }
  split; [exact H|]; unfold price_clean_of; now rewrite H.
Qed.

Section RequestsOfARun.

Variable BeautifulSoup : str -> PageElement.
Variable site : list str -> str -> RequestException + Response.

Lemma for_pages_requests_prefix (pages : list Z) (all_books : list book)
      (w : world) :
  exists n,
    n <= length pages /\
    requests (snd (for_pages BeautifulSoup site pages all_books w))
    = requests w ++ map page_url (firstn n pages) /\
    (forall l, fst (for_pages BeautifulSoup site pages all_books w) = Return l ->
               n = length pages).
Proof.
  revert all_books w; induction pages as [|p pages IH]; intros all_books w.
  - exists 0; cbn; rewrite app_nil_r; auto.
  - rewrite for_pages_cons; cbv zeta.
    destruct (page_books BeautifulSoup site (requests w) p) as [bs|e].
    + match goal with
      | |- context [for_pages _ _ pages ?acc ?w1] =>
          destruct (IH acc w1) as (n & Hn & Hreq & Hret)
      end.
      exists (S n); split; [cbn; lia|]; split.
      * rewrite Hreq; cbn [requests firstn map]; now rewrite <- app_assoc.
      * intros l Hl; cbn [length]; f_equal; eapply Hret; exact Hl.
    + exists 1; split; [cbn; lia|]; split; [reflexivity | discriminate].
Qed.

(** X20. However a run of [scrape_books] ends, the requests it made are the
    URLs of the pages 1, 2, ..., n for some n <= N, in this order and
    nothing else: no page is skipped, none is fetched out of turn; and n = N
    when a table is returned. *)
Theorem requests_are_a_prefix (N : Z) (w : world) :
  exists n,
    n <= length (pages_of N) /\
    requests (snd (scrape_books BeautifulSoup site N w))
    = requests w ++ map page_url (firstn n (pages_of N)) /\
    (forall df, fst (scrape_books BeautifulSoup site N w) = Return df ->
                n = length (pages_of N)).
Proof.
  destruct (for_pages_requests_prefix (pages_of N) [] w)
    as (n & Hn & Hreq & Hret).
  exists n; split; [exact Hn|].
  rewrite scrape_books_run.
  destruct (for_pages BeautifulSoup site (pages_of N) [] w) as [[all|e] w1];
    cbn [fst snd] in *.
  - split; [exact Hreq|]; intros _ _; now apply (Hret all).
  - split; [exact Hreq | discriminate].
Qed.

End RequestsOfARun.
